(** * github-agent-collab: the merge, review and specification agents

    A shallow embedding of [src/agents/base_agent.py],
    [src/agents/merge_agent.py], [src/agents/review_agent.py],
    [src/agents/specification_agent.py] and of [run_agent_cycle] in
    [src/main.py], followed by the properties of the merge evaluation that
    the specification states.

    Conventions.
    - Python [str] is [string] (the bytes of its UTF-8 encoding).
      [Py.lower] is [str.lower] on ASCII letters and serves where nothing
      else can matter (a name tested against "test"); where [str.lower]
      meets free text, the titles of pull requests, it is a parameter.
    - The forge (the PyGithub client and the service behind it) is a value of
      type [Repo]; every agent method is a computation in [M], a state monad
      over [Repo] with exceptions, so that [try]/[except] and the order of the
      calls are the ones of the source.
    - Every call of a writing operation of the forge (merge, comment, review)
      is kept in the repository's [requests], refused ones too, so that
      "no action" can be told from "an action without effect".
    - Logging is not modelled. *)

From stdpp Require Import base gmap strings list pretty.
From Stdlib Require Import ZArith String Ascii Bool Lia.

Open Scope string_scope.
Open Scope Z_scope.
Open Scope list_scope.

(** ** Strings, as Python uses them *)

Module Py.

(** [c.lower()] for one ASCII character. *)
Definition lower_ascii (c : ascii) : ascii :=
  let n := nat_of_ascii c in
  if (Nat.leb 65 n && Nat.leb n 90)%bool then ascii_of_nat (n + 32) else c.

(** [s.lower()] as far as ASCII letters go; every other byte is kept. *)
Fixpoint lower (s : string) : string :=
  match s with
  | EmptyString => EmptyString
  | String c s' => String (lower_ascii c) (lower s')
  end.

(** [s.startswith(p)] *)
Definition startswith (s p : string) : bool := String.prefix p s.

(** [sub in s] *)
Fixpoint contains (s sub : string) : bool :=
  String.prefix sub s ||
  match s with
  | EmptyString => false
  | String _ s' => contains s' sub
  end.

(** [sep.join(parts)] *)
Definition join (sep : string) (parts : list string) : string :=
  String.concat sep parts.

(** [x and y] where [x] is [None] or an object that is always truthy, and
    [y] is a boolean: the value is [None] or the boolean. *)
Definition and_then {A} (x : option A) (y : A → bool) : option bool :=
  match x with
  | None => None
  | Some a => Some (y a)
  end.

(** Truth value of [None] or a boolean, as [if] and [not] take it. *)
Definition truthy (v : option bool) : bool :=
  match v with
  | Some b => b
  | None => false
  end.

(** [l.count(x)] *)
Definition count (x : string) (l : list string) : nat :=
  List.length (List.filter (String.eqb x) l).

(** [x in l] *)
Definition mem (x : string) (l : list string) : bool :=
  existsb (String.eqb x) l.

End Py.

(** ** What the forge holds *)

Inductive exn : Type :=
| GithubException (status : Z)
| IndexError.

Inductive result (A : Type) : Type :=
| Ok (a : A)
| Raise (e : exn).
Arguments Ok {A} a.
Arguments Raise {A} e.

Record Review : Type := {
  review_login : string;            (* review.user.login *)
  review_state : string             (* review.state *)
}.

Record CheckRun : Type := {
  check_name : string;              (* check.name *)
  check_conclusion : string         (* check.conclusion *)
}.

Record Commit : Type := {
  commit_sha : string;
  commit_check_runs : result (list CheckRun)   (* commit.get_check_runs() *)
}.

(** A pull request as [repo.get_pull] answers it. The listings that PyGithub
    fetches on demand are carried with it, each as the list the forge
    returns or the exception the request ends in. *)
Record PullRequest : Type := {
  pr_number : Z;
  pr_title : string;
  pr_body : option string;
  pr_user : string;                 (* pr.user.login *)
  pr_head_ref : string;             (* pr.head.ref *)
  pr_base_ref : string;             (* pr.base.ref *)
  pr_base_sha : string;             (* pr.base.sha *)
  pr_state : string;                (* "open" or "closed" *)
  pr_merged : bool;
  pr_reviews : result (list Review);
  pr_commits : result (list Commit)
}.

(** A call of one of the forge's writing operations, as the forge receives
    it; [accepted] tells whether a merge was carried out or refused. *)
Inductive Request : Type :=
| MergeRequest (number : Z) (commit_message : string) (accepted : bool)
| IssueComment (number : Z) (body : string)
| ReviewSubmission (number : Z) (body event : string).

Record Repo : Type := {
  pulls : list PullRequest;                 (* in the forge's listing order *)
  branches : list (string * string);        (* branch name, head commit sha *)
  login : string;                           (* github.get_user().login *)
  requests : list Request                   (* received so far, oldest first *)
}.

(** ** Computations against the forge *)

Definition M (A : Type) : Type := Repo → result A * Repo.

#[export] Instance M_ret : MRet M := λ A a w, (Ok a, w).

#[export] Instance M_bind : MBind M := λ A B f m w,
  match m w with
  | (Ok a, w') => f a w'
  | (Raise e, w') => (Raise e, w')
  end.

Definition raise {A} (e : exn) : M A := λ w, (Raise e, w).

(** [try: body  except Exception as e: handler e]. What [body] did before it
    raised stays done. *)
Definition try_except {A} (body : M A) (handler : exn → M A) : M A := λ w,
  match body w with
  | (Ok a, w') => (Ok a, w')
  | (Raise e, w') => handler e w'
  end.

(** A listing fetched on demand. *)
Definition fetch {A} (r : result A) : M A := λ w, (r, w).

(** [for x in xs: body x] *)
Fixpoint for_each {A} (body : A → M unit) (xs : list A) : M unit :=
  match xs with
  | [] => mret ()
  | x :: xs' => body x ≫= λ _, for_each body xs'
  end.

(** ** The forge's operations *)

Module Forge.

Definition has_number (n : Z) (p : PullRequest) : bool := pr_number p =? n.

(** [repo.get_pull(number)]: 404 when there is no such pull request. *)
Definition get_pull (n : Z) : M PullRequest := λ w,
  match List.find (has_number n) (pulls w) with
  | Some p => (Ok p, w)
  | None => (Raise (GithubException 404), w)
  end.

(** [repo.get_pulls(state=...)] *)
Definition get_pulls (state : string) : M (list PullRequest) := λ w,
  (Ok (if String.eqb state "all" then pulls w
       else List.filter (λ p, String.eqb (pr_state p) state) (pulls w)), w).

(** [pr.get_reviews()] *)
Definition get_reviews (pr : PullRequest) : M (list Review) :=
  fetch (pr_reviews pr).

(** [pr.get_commits()] *)
Definition get_commits (pr : PullRequest) : M (list Commit) :=
  fetch (pr_commits pr).

(** [commit.get_check_runs()] *)
Definition get_check_runs (c : Commit) : M (list CheckRun) :=
  fetch (commit_check_runs c).

(** [repo.get_branch(ref).commit.sha]: 404 when there is no such branch. *)
Definition get_branch_sha (ref : string) : M string := λ w,
  match List.find (λ b, String.eqb (fst b) ref) (branches w) with
  | Some b => (Ok (snd b), w)
  | None => (Raise (GithubException 404), w)
  end.

(** [github.get_user().login] *)
Definition get_user_login : M string := λ w, (Ok (login w), w).

Definition close_merged (p : PullRequest) : PullRequest :=
  {| pr_number := pr_number p; pr_title := pr_title p; pr_body := pr_body p;
     pr_user := pr_user p; pr_head_ref := pr_head_ref p;
     pr_base_ref := pr_base_ref p; pr_base_sha := pr_base_sha p;
     pr_state := "closed"; pr_merged := true;
     pr_reviews := pr_reviews p; pr_commits := pr_commits p |}.

(** The repository once the forge has received [r] and, for every pull
    request numbered [n], done [f] to it. *)
Definition received (r : Request) (n : Z) (f : PullRequest → PullRequest)
    (w : Repo) : Repo :=
  {| pulls := List.map (λ q, if has_number n q then f q else q) (pulls w);
     branches := branches w; login := login w;
     requests := requests w ++ [r] |}.

(** The repository once the forge has received [r] and changed nothing. *)
Definition logged (r : Request) (w : Repo) : Repo :=
  {| pulls := pulls w; branches := branches w; login := login w;
     requests := requests w ++ [r] |}.

(** Whether the forge carries out a merge of the pull request: it must be
    there, open and not merged yet. *)
Definition mergeable (n : Z) (w : Repo) : bool :=
  match List.find (has_number n) (pulls w) with
  | None => false
  | Some p => (negb (pr_merged p) && String.eqb (pr_state p) "open")%bool
  end.

(** [pr.merge(commit_message=...)]. The forge is the guard against a second
    merge: it refuses (405) a pull request that is merged or closed. *)
Definition merge (pr : PullRequest) (commit_message : string) : M unit := λ w,
  let n := pr_number pr in
  if mergeable n w
  then (Ok (), received (MergeRequest n commit_message true) n close_merged w)
  else (Raise (GithubException 405),
        logged (MergeRequest n commit_message false) w).

(** [pr.create_issue_comment(comment)] *)
Definition create_issue_comment (pr : PullRequest) (comment : string)
  : M unit := λ w,
  (Ok (), logged (IssueComment (pr_number pr) comment) w).

(** The state a review has once submitted with the given event. *)
Definition state_of_event (event : string) : string :=
  if String.eqb event "APPROVE" then "APPROVED"
  else if String.eqb event "REQUEST_CHANGES" then "CHANGES_REQUESTED"
  else "COMMENTED".

Definition add_review (r : Review) (p : PullRequest) : PullRequest :=
  {| pr_number := pr_number p; pr_title := pr_title p; pr_body := pr_body p;
     pr_user := pr_user p; pr_head_ref := pr_head_ref p;
     pr_base_ref := pr_base_ref p; pr_base_sha := pr_base_sha p;
     pr_state := pr_state p; pr_merged := pr_merged p;
     pr_reviews :=
       match pr_reviews p with
       | Ok rs => Ok (rs ++ [r])
       | Raise e => Raise e
       end;
     pr_commits := pr_commits p |}.

(** [pr.create_review(body=..., event=...)]: the review is the
    authenticated account's. *)
Definition create_review (pr : PullRequest) (body event : string)
  : M unit := λ w,
  let n := pr_number pr in
  let r := {| review_login := login w;
              review_state := state_of_event event |} in
  (Ok (), received (ReviewSubmission n body event) n (add_review r) w).

End Forge.

(** ** [BaseAgent] *)

(** The dictionary [get_open_prs] builds for a pull request (its ["url"] and
    ["created_at"] entries, which no agent reads, are left out). *)
Record PrDict : Type := {
  d_number : Z;
  d_title : string;
  d_body : option string;
  d_user : string
}.

Definition pr_dict (pr : PullRequest) : PrDict :=
  {| d_number := pr_number pr; d_title := pr_title pr;
     d_body := pr_body pr; d_user := pr_user pr |}.

Definition comment_on_pr (pr_number : Z) (comment : string) : M bool :=
  try_except
    (pr ← Forge.get_pull pr_number;
     _ ← Forge.create_issue_comment pr comment;
     mret true)
    (λ _, mret false).

Definition get_open_prs : M (list PrDict) :=
  try_except
    (prs ← Forge.get_pulls "open";
     mret (List.map pr_dict prs))
    (λ _, mret []).

Definition merge_pr (pr_number : Z) (commit_message : string) : M bool :=
  try_except
    (pr ← Forge.get_pull pr_number;
     _ ← Forge.merge pr commit_message;
     mret true)
    (λ _, mret false).

(** ** [MergeAgent] *)

Record MergeStatus : Type := {
  can_merge : bool;
  checks_passed : bool;
  tests_passed : option bool;       (* [None], [True] or [False] *)
  review_requirements_met : bool;
  branch_up_to_date : bool;
  blocking_issues : list string
}.

Module Status.

Definition set_checks_passed (b : bool) (s : MergeStatus) : MergeStatus :=
  {| can_merge := can_merge s; checks_passed := b;
     tests_passed := tests_passed s;
     review_requirements_met := review_requirements_met s;
     branch_up_to_date := branch_up_to_date s;
     blocking_issues := blocking_issues s |}.

Definition set_tests_passed (v : option bool) (s : MergeStatus) : MergeStatus :=
  {| can_merge := can_merge s; checks_passed := checks_passed s;
     tests_passed := v;
     review_requirements_met := review_requirements_met s;
     branch_up_to_date := branch_up_to_date s;
     blocking_issues := blocking_issues s |}.

Definition set_review_requirements_met (b : bool) (s : MergeStatus)
  : MergeStatus :=
  {| can_merge := can_merge s; checks_passed := checks_passed s;
     tests_passed := tests_passed s;
     review_requirements_met := b;
     branch_up_to_date := branch_up_to_date s;
     blocking_issues := blocking_issues s |}.

Definition set_branch_up_to_date (b : bool) (s : MergeStatus) : MergeStatus :=
  {| can_merge := can_merge s; checks_passed := checks_passed s;
     tests_passed := tests_passed s;
     review_requirements_met := review_requirements_met s;
     branch_up_to_date := b;
     blocking_issues := blocking_issues s |}.

(** [status["blocking_issues"].append(issue); status["can_merge"] = False] *)
Definition block (issue : string) (s : MergeStatus) : MergeStatus :=
  {| can_merge := false; checks_passed := checks_passed s;
     tests_passed := tests_passed s;
     review_requirements_met := review_requirements_met s;
     branch_up_to_date := branch_up_to_date s;
     blocking_issues := blocking_issues s ++ [issue] |}.

(** [if not value: block issue] *)
Definition block_unless (value : bool) (issue : string) (s : MergeStatus)
  : MergeStatus :=
  if negb value then block issue s else s.

End Status.

(** The dictionary of [is_pr_approved]: reviewer login to the state of the
    review of theirs that the listing returns last. *)
Definition latest_reviews (reviews : list Review) : gmap string string :=
  foldl (λ m review, <[review_login review := review_state review]> m)
        ∅ reviews.

(** [latest_reviews.values()] *)
Definition values (m : gmap string string) : list string :=
  (map_to_list m).*2.

Definition is_pr_approved (pr : PullRequest) : M bool :=
  reviews ← Forge.get_reviews pr;
  let latest := values (latest_reviews reviews) in
  let approvals := List.length (List.filter (String.eqb "APPROVED") latest) in
  mret (Nat.leb 1 approvals && negb (Py.mem "CHANGES_REQUESTED" latest))%bool.

(** [xs.reversed[0]] *)
Definition reversed_0 {A} (xs : list A) : M A :=
  match rev xs with
  | x :: _ => mret x
  | [] => raise IndexError
  end.

Definition is_success (check : CheckRun) : bool :=
  String.eqb (check_conclusion check) "success".

Definition is_test_check (check : CheckRun) : bool :=
  Py.startswith (Py.lower (check_name check)) "test".

Definition check_merge_criteria (pr : PullRequest) : M MergeStatus :=
  let status :=
    {| can_merge := true; checks_passed := false; tests_passed := Some false;
       review_requirements_met := false; branch_up_to_date := false;
       blocking_issues := [] |} in
  (* Check if CI checks are passing *)
  commits ← Forge.get_commits pr;
  head ← reversed_0 commits;
  checks ← Forge.get_check_runs head;
  let status := Status.set_checks_passed (forallb is_success checks) status in
  let status :=
    Status.block_unless (checks_passed status) "CI checks must pass" status in
  (* Check if tests are passing *)
  let test_check := List.find is_test_check checks in
  let status :=
    Status.set_tests_passed (Py.and_then test_check is_success) status in
  let status :=
    Status.block_unless (Py.truthy (tests_passed status))
                        "All tests must pass" status in
  (* Check review requirements *)
  reviews ← Forge.get_reviews pr;
  let review_states := List.map review_state reviews in
  let status :=
    Status.set_review_requirements_met
      (Nat.leb 1 (Py.count "APPROVED" review_states)
       && negb (Py.mem "CHANGES_REQUESTED" review_states))%bool status in
  let status :=
    Status.block_unless (review_requirements_met status)
                        "Required reviews must be approved" status in
  (* Check if branch is up to date *)
  base ← Forge.get_branch_sha (pr_base_ref pr);
  let status :=
    Status.set_branch_up_to_date (String.eqb (pr_base_sha pr) base) status in
  let status :=
    Status.block_unless (branch_up_to_date status)
                        "Branch must be up to date with base" status in
  mret status.

(** The two glyphs, byte for byte as the source file has them. *)
Definition glyph_pass : string := "âœ…".
Definition glyph_fail : string := "âŒ".

Definition glyph (b : bool) : string := if b then glyph_pass else glyph_fail.

Definition newline : string := String (ascii_of_nat 10) EmptyString.

Definition review_line (review : Review) : string :=
  "- " +:+ review_login review +:+ ": " +:+ review_state review.

Definition generate_merge_commit_message (pr : PullRequest)
    (merge_status : MergeStatus) : M string :=
  let message_parts := [
    "Merge pull request #" +:+ pretty (pr_number pr) +:+ " from "
      +:+ pr_head_ref pr;
    EmptyString;
    pr_title pr;
    EmptyString;
    "# Merge Criteria";
    "- CI Checks: " +:+ glyph (checks_passed merge_status);
    "- Tests: " +:+ glyph (Py.truthy (tests_passed merge_status));
    "- Reviews: " +:+ glyph (review_requirements_met merge_status);
    "- Branch Status: " +:+ glyph (branch_up_to_date merge_status);
    EmptyString;
    "# Changes";
    match pr_body pr with
    | Some (String c b) => String c b
    | _ => "No description provided."
    end;
    EmptyString;
    "# Reviews"
  ] in
  reviews ← Forge.get_reviews pr;
  let message_parts := (message_parts ++ List.map review_line reviews)%list in
  mret (Py.join newline message_parts).

Definition blocking_line (issue : string) : string :=
  "- " +:+ glyph_fail +:+ " " +:+ issue.

Definition generate_blocking_comment (merge_status : MergeStatus) : string :=
  let comment_parts := [
    "# ğŸš« Cannot Merge Pull Request";
    EmptyString;
    "The following criteria must be met before merging:";
    EmptyString
  ] in
  let comment_parts :=
    (comment_parts ++ List.map blocking_line (blocking_issues merge_status))%list in
  let comment_parts :=
    (comment_parts
       ++ [EmptyString; "Please address these issues and request a new review."])%list in
  Py.join newline comment_parts.

Definition evaluate_pr_for_merge (pr : PrDict) : M unit :=
  let pr_number := d_number pr in
  github_pr ← Forge.get_pull pr_number;
  (* Skip if PR is not approved or has pending reviews *)
  approved ← is_pr_approved github_pr;
  if negb approved then mret () else
  (* Check merge criteria *)
  merge_status ← check_merge_criteria github_pr;
  if can_merge merge_status then
    commit_message ← generate_merge_commit_message github_pr merge_status;
    _ ← merge_pr pr_number commit_message;
    mret ()
  else
    let comment := generate_blocking_comment merge_status in
    _ ← comment_on_pr pr_number comment;
    mret ().

Module MergeAgent.

Definition role : string := "MergeAgent".

Definition process : M unit :=
  open_prs ← get_open_prs;
  for_each evaluate_pr_for_merge open_prs.

End MergeAgent.

(** ** [ReviewAgent] *)

Definition is_blocking_issue (comment : string) : bool :=
  Py.startswith comment glyph_fail.

Definition has_reviewed_pr (pr : PullRequest) : M bool :=
  reviews ← Forge.get_reviews pr;
  bot_username ← Forge.get_user_login;
  mret (existsb (λ review, String.eqb (review_login review) bot_username)
                reviews).

Section ReviewAgent.

(** The three analyses of a pull request ([check_commit_messages],
    [check_code], [check_tests]) only read the forge and return their
    findings; what they find is left open here. *)
Variables check_commit_messages check_code check_tests
  : PullRequest → M (list string).

(** [if issues: review_comments.extend(issues)] *)
Definition extend_if (review_comments issues : list string) : list string :=
  match issues with
  | [] => review_comments
  | _ :: _ => (review_comments ++ issues)%list
  end.

Definition review_pull_request (pr : PrDict) : M unit :=
  let pr_number := d_number pr in
  (* Get PR details from GitHub *)
  github_pr ← Forge.get_pull pr_number;
  (* Skip if PR has already been reviewed by this agent *)
  reviewed ← has_reviewed_pr github_pr;
  if (reviewed : bool) then mret () else
  let review_comments := [] in
  commit_issues ← check_commit_messages github_pr;
  let review_comments := extend_if review_comments commit_issues in
  code_issues ← check_code github_pr;
  let review_comments := extend_if review_comments code_issues in
  test_issues ← check_tests github_pr;
  let review_comments := extend_if review_comments test_issues in
  (* Submit review *)
  match review_comments with
  | _ :: _ =>
      let review_body :=
        "## Code Review Feedback" +:+ newline +:+ newline
          +:+ Py.join newline review_comments in
      Forge.create_review github_pr review_body
        (if existsb is_blocking_issue review_comments
         then "REQUEST_CHANGES" else "COMMENT")
  | [] =>
      Forge.create_review github_pr "Code looks good! All checks passed."
        "APPROVE"
  end.

Definition review_agent_process : M unit :=
  open_prs ← get_open_prs;
  for_each review_pull_request open_prs.

End ReviewAgent.

(** ** [SpecificationAgent]: the status pass *)

(** A feature record of the specification document (its three lists of
    requirements, which the status pass does not read, are left out). *)
Record Feature : Type := {
  feature_id : string;
  feature_title : string;
  feature_priority : string;
  feature_status : string
}.

Definition set_status (status : string) (f : Feature) : Feature :=
  {| feature_id := feature_id f; feature_title := feature_title f;
     feature_priority := feature_priority f; feature_status := status |}.

Section SpecificationAgent.

(** [str.lower], for the titles of pull requests. A title is free text,
    which Python lower-cases by the Unicode tables; the status pass is
    modelled for whatever [str.lower] makes of a title. *)
Variable lower : string → string.

(** [pr.title.lower().startswith(f"feat: {feature['id']}")] *)
Definition implements (feature : Feature) (pr : PullRequest) : bool :=
  Py.startswith (lower (pr_title pr)) ("feat: " +:+ feature_id feature).

(** The inner loop over the pull requests, with its two [break]s: the
    feature as it leaves the loop, and whether it was updated. *)
Fixpoint scan_pulls (feature : Feature) (prs : list PullRequest)
  : Feature * bool :=
  match prs with
  | [] => (feature, false)
  | pr :: prs' =>
      if implements feature pr then
        if pr_merged pr then (set_status "completed" feature, true)
        else if String.eqb (pr_state pr) "open"
             then (set_status "in-progress" feature, true)
             else scan_pulls feature prs'
      else scan_pulls feature prs'
  end.

(** The outer loop over the features; [updated] is the flag of the source. *)
Fixpoint update_features (features : list Feature) (updated : bool)
  : M (list Feature * bool) :=
  match features with
  | [] => mret ([], updated)
  | feature :: rest =>
      if String.eqb (feature_status feature) "pending" then
        (* Check if feature implementation PR exists *)
        prs ← Forge.get_pulls "all";
        let (feature', hit) := scan_pulls feature prs in
        r ← update_features rest (updated || hit)%bool;
        mret (feature' :: fst r, snd r)
      else
        r ← update_features rest updated;
        mret (feature :: fst r, snd r)
  end.

(** The first half of [review_and_update_specifications]: the features of
    [current_specs] after the loops, and [updated]. When [updated] is set
    the source goes on to publish the document through a branch and a pull
    request; that half changes no status and is not modelled. *)
Definition review_and_update_specifications (features : list Feature)
  : M (list Feature * bool) :=
  update_features features false.

End SpecificationAgent.

(** ** [AgentOrchestrator] *)

(** What every agent offers ([BaseAgent]'s two abstract members). *)
Record Agent : Type := {
  role : string;
  process : M unit
}.

Definition merge_agent : Agent :=
  {| role := MergeAgent.role; process := MergeAgent.process |}.

Definition run_agent_cycle (agents : list Agent) : M unit :=
  for_each (λ agent, try_except (process agent) (λ _, mret ())) agents.

(** ** [ReviewAgent.check_commit_messages] *)

(** Regular expressions, as far as the pattern of [check_commit_messages]
    needs them, over the bytes of the text. The characters that the
    pattern names are ASCII, and no byte of a longer UTF-8 character is
    ASCII, so that [.] may be read as any byte but a newline: [.+] then
    stands for the same non-empty one-line texts. *)
Module Re.

Inductive t : Type :=
| Empty                     (* matches nothing *)
| Eps                       (* matches the empty text *)
| Lit (c : ascii)           (* the character [c] *)
| Dot                       (* [.]: any character but a newline *)
| Seq (r s : t)             (* [rs] *)
| Alt (r s : t)             (* [r|s] *)
| Star (r : t).             (* [r*] *)

(** [r?] *)
Definition Opt (r : t) : t := Alt r Eps.

(** [r+] *)
Definition Plus (r : t) : t := Seq r (Star r).

(** The characters of [s], one after the other. *)
Fixpoint Str (s : string) : t :=
  match s with
  | EmptyString => Eps
  | String c s' => Seq (Lit c) (Str s')
  end.

Definition newline_char : ascii := ascii_of_nat 10.

(** Whether the empty text matches. *)
Fixpoint nullable (r : t) : bool :=
  match r with
  | Empty => false
  | Eps => true
  | Lit _ => false
  | Dot => false
  | Seq r s => (nullable r && nullable s)%bool
  | Alt r s => (nullable r || nullable s)%bool
  | Star _ => true
  end.

(** What is left to match once [c] has been read. *)
Fixpoint deriv (c : ascii) (r : t) : t :=
  match r with
  | Empty => Empty
  | Eps => Empty
  | Lit d => if Ascii.eqb c d then Eps else Empty
  | Dot => if Ascii.eqb c newline_char then Empty else Eps
  | Seq r s =>
      if nullable r then Alt (Seq (deriv c r) s) (deriv c s)
      else Seq (deriv c r) s
  | Alt r s => Alt (deriv c r) (deriv c s)
  | Star r => Seq (deriv c r) (Star r)
  end.

(** Whether some text that [s] starts with matches [r]. *)
Fixpoint starts_with_match (r : t) (s : list ascii) : bool :=
  (nullable r ||
   match s with
   | [] => false
   | c :: s' => starts_with_match (deriv c r) s'
   end)%bool.

(** [re.match(r, s)] finds a match. The pattern's leading [^] holds at the
    start of the text, where [re.match] looks, and is left out of [r]. *)
Definition match_ (r : t) (s : string) : bool :=
  starts_with_match r (list_ascii_of_string s).

End Re.

(** The seven commit types of the pattern. *)
Definition commit_types : list string :=
  ["feat"; "fix"; "docs"; "style"; "refactor"; "test"; "chore"].

(** [(feat|fix|docs|style|refactor|test|chore)] *)
Definition re_commit_type : Re.t :=
  Re.Alt (Re.Str "feat")
    (Re.Alt (Re.Str "fix")
      (Re.Alt (Re.Str "docs")
        (Re.Alt (Re.Str "style")
          (Re.Alt (Re.Str "refactor")
            (Re.Alt (Re.Str "test") (Re.Str "chore")))))).

(** [\(.+\)] *)
Definition re_scope : Re.t :=
  Re.Seq (Re.Lit "(") (Re.Seq (Re.Plus Re.Dot) (Re.Lit ")")).

(** [^(feat|fix|docs|style|refactor|test|chore)(\(.+\))?: .+] *)
Definition re_conventional_commit : Re.t :=
  Re.Seq re_commit_type
    (Re.Seq (Re.Opt re_scope)
      (Re.Seq (Re.Str ": ") (Re.Plus Re.Dot))).

(** [len(s)]: the characters of the text, counted as the bytes of its
    UTF-8 encoding that do not continue a character. *)
Fixpoint py_len (s : string) : nat :=
  match s with
  | EmptyString => 0
  | String c s' =>
      let n := nat_of_ascii c in
      if (Nat.leb 128 n && Nat.leb n 191)%bool then py_len s'
      else S (py_len s')
  end.

(** [s.split('\n')[0]] *)
Fixpoint first_line (s : string) : string :=
  match s with
  | EmptyString => EmptyString
  | String c s' =>
      if Ascii.eqb c Re.newline_char then EmptyString
      else String c (first_line s')
  end.

(** A commit of the pull request, as [check_commit_messages] reads it. *)
Record CommitInfo : Type := {
  info_sha : string;                (* commit.sha *)
  info_message : string             (* commit.commit.message *)
}.

(** [commit.sha[:7]] *)
Definition short_sha (commit : CommitInfo) : string :=
  String.substring 0 7 (info_sha commit).

Definition format_issue (commit : CommitInfo) : string :=
  glyph_fail +:+ " Commit `" +:+ short_sha commit
    +:+ "` doesn't follow conventional commit format".

Definition length_issue (commit : CommitInfo) : string :=
  glyph_fail +:+ " Commit `" +:+ short_sha commit
    +:+ "` has too long subject line (>72 chars)".

(** The body of the loop of [check_commit_messages], for one commit. *)
Definition check_commit_message (issues : list string) (commit : CommitInfo)
  : list string :=
  let msg := info_message commit in
  (* Check conventional commit format *)
  let issues :=
    if negb (Re.match_ re_conventional_commit msg)
    then issues ++ [format_issue commit] else issues in
  (* Check message length *)
  let issues :=
    if Nat.ltb 72 (py_len (first_line msg))
    then issues ++ [length_issue commit] else issues in
  issues.

(** [check_commit_messages], on the commits that [pr.get_commits()]
    lists. *)
Definition check_commit_messages (commits : list CommitInfo) : list string :=
  fold_left check_commit_message commits [].

(** ** [BaseAgent.create_branch] *)

(** The text after the prefix [p] in [s], when [s] starts with [p]. *)
Fixpoint strip_prefix (p s : string) : option string :=
  match p with
  | EmptyString => Some s
  | String a p' =>
      match s with
      | EmptyString => None
      | String b s' => if Ascii.eqb a b then strip_prefix p' s' else None
      end
  end.

(** [repo.create_git_ref(ref=..., sha=...)] for a branch: the forge refuses
    (422) a reference that is not of a branch here, and one that exists. *)
Definition create_git_ref (ref sha : string) : M unit := λ w,
  match strip_prefix "refs/heads/" ref with
  | None => (Raise (GithubException 422), w)
  | Some name =>
      if existsb (λ b, String.eqb (fst b) name) (branches w)
      then (Raise (GithubException 422), w)
      else (Ok (),
            {| pulls := pulls w; branches := branches w ++ [(name, sha)];
               login := login w; requests := requests w |})
  end.

Definition create_branch (branch_name from_branch : string) : M bool :=
  try_except
    (base ← Forge.get_branch_sha from_branch;
     _ ← create_git_ref ("refs/heads/" +:+ branch_name) base;
     mret true)
    (λ _, mret false).

(** * Vocabulary of the properties *)

(** The four sub-checks of a status, in the order they are evaluated, each
    as the truth value [if not ...] sees. *)
Definition sub_checks (s : MergeStatus) : list bool :=
  [checks_passed s; Py.truthy (tests_passed s);
   review_requirements_met s; branch_up_to_date s].

(** The dictionary [check_merge_criteria] starts from. *)
Definition initial_status : MergeStatus :=
  {| can_merge := true; checks_passed := false; tests_passed := Some false;
     review_requirements_met := false; branch_up_to_date := false;
     blocking_issues := [] |}.

(** The check runs of the most recent commit of a pull request. *)
Definition head_check_runs (pr : PullRequest) : M (list CheckRun) :=
  commits ← Forge.get_commits pr;
  head ← reversed_0 commits;
  Forge.get_check_runs head.

(** The input state of one evaluation: what the four fetches answer. *)
Definition input_state (pr : PullRequest) (w : Repo)
  : result (list CheckRun) * result (list Review) * string * result string :=
  (fst (head_check_runs pr w), pr_reviews pr, pr_base_sha pr,
   fst (Forge.get_branch_sha (pr_base_ref pr) w)).

(** A computation that leaves the repository as it finds it. *)
Definition reads {A} (m : M A) : Prop := ∀ w, snd (m w) = w.

(** The state of the review of [login] that the listing returns last, if
    there is one: the latest-per-reviewer state. *)
Definition latest_state (login : string) (reviews : list Review)
  : option string :=
  review_state <$>
    List.find (λ r, String.eqb (review_login r) login) (rev reviews).

(** The approval gate fails: no reviewer's latest state is APPROVED, or some
    reviewer's latest state is CHANGES_REQUESTED. *)
Definition gate_fails (reviews : list Review) : Prop :=
  (∀ login, latest_state login reviews ≠ Some "APPROVED") ∨
  (∃ login, latest_state login reviews = Some "CHANGES_REQUESTED").

(** The status that the assignments of [check_merge_criteria] build from
    the answers of the four fetches. *)
Definition status_of (checks : list CheckRun) (reviews : list Review)
    (recorded_sha base : string) : MergeStatus :=
  let cp := forallb is_success checks in
  let tp := Py.and_then (List.find is_test_check checks) is_success in
  let rr :=
    (Nat.leb 1 (Py.count "APPROVED" (List.map review_state reviews))
     && negb (Py.mem "CHANGES_REQUESTED" (List.map review_state reviews)))%bool in
  let bu := String.eqb recorded_sha base in
  Status.block_unless bu "Branch must be up to date with base"
    (Status.set_branch_up_to_date bu
      (Status.block_unless rr "Required reviews must be approved"
        (Status.set_review_requirements_met rr
          (Status.block_unless (Py.truthy tp) "All tests must pass"
            (Status.set_tests_passed tp
              (Status.block_unless cp "CI checks must pass"
                (Status.set_checks_passed cp initial_status))))))).

(** A pull request that settles the status of a feature: it implements the
    feature and is merged or open. *)
Definition decisive (lower : string → string) (feature : Feature)
    (pr : PullRequest) : bool :=
  (implements lower feature pr
   && (pr_merged pr || String.eqb (pr_state pr) "open"))%bool.

(** [feature'] is [feature] after the status pass over the listing [prs]:
    a feature that is not pending is left alone; a pending one takes its
    status from the first decisive pull request of the listing, and stays
    as it is when there is none. *)
Definition status_pass (lower : string → string) (prs : list PullRequest)
    (feature feature' : Feature) : Prop :=
  (feature_status feature ≠ "pending" → feature' = feature) ∧
  (feature_status feature = "pending" →
   ((∀ pr, In pr prs → decisive lower feature pr = false) →
    feature' = feature) ∧
   (∀ before pr after,
      prs = before ++ pr :: after →
      (∀ p, In p before → decisive lower feature p = false) →
      decisive lower feature pr = true →
      feature' = set_status (if pr_merged pr then "completed"
                             else "in-progress") feature)).

(** The status the specification's sentence gives a feature: completed if
    any pull request whose title starts with "feat: <id>" is merged,
    otherwise in-progress if any such pull request is open, otherwise
    unchanged. *)
Definition claimed_status (feature : Feature) (prs : list PullRequest)
  : string :=
  let about :=
    List.filter
      (λ pr, Py.startswith (pr_title pr) ("feat: " +:+ feature_id feature))
      prs in
  if existsb pr_merged about then "completed"
  else if existsb (λ pr, String.eqb (pr_state pr) "open") about
       then "in-progress"
       else feature_status feature.

(** ** Inputs used in the examples *)

Module Ex.

Definition alice_approved : Review :=
  {| review_login := "alice"; review_state := "APPROVED" |}.

Definition bob_changes : Review :=
  {| review_login := "bob"; review_state := "CHANGES_REQUESTED" |}.

Definition check (name conclusion : string) : CheckRun :=
  {| check_name := name; check_conclusion := conclusion |}.

Definition commit (checks : list CheckRun) : Commit :=
  {| commit_sha := "c0ffee1"; commit_check_runs := Ok checks |}.

(** An open pull request on [main], recorded at base sha [abc123]. *)
Definition pull (n : Z) (reviews : result (list Review))
    (checks : list CheckRun) : PullRequest :=
  {| pr_number := n; pr_title := "feat: add user auth";
     pr_body := Some "Implements user authentication";
     pr_user := "dev"; pr_head_ref := "feature-branch";
     pr_base_ref := "main"; pr_base_sha := "abc123";
     pr_state := "open"; pr_merged := false;
     pr_reviews := reviews; pr_commits := Ok [commit checks] |}.

Definition repo (ps : list PullRequest) : Repo :=
  {| pulls := ps; branches := [("main", "abc123")]; login := "test-bot";
     requests := [] |}.

Definition dict (n : Z) : PrDict :=
  {| d_number := n; d_title := "feat: add user auth";
     d_body := Some "Implements user authentication"; d_user := "dev" |}.

(** One passing run named [unit-test], one approval. *)
Definition pull_unit_test : PullRequest :=
  pull 1 (Ok [alice_approved]) [check "unit-test" "success"].

(** One passing run whose name does start with [test]. *)
Definition pull_tests : PullRequest :=
  pull 1 (Ok [alice_approved]) [check "Tests / unit" "success"].

(** The same input state under another number and title, in a repository
    that has already received a request. *)
Definition pull_unit_test_again : PullRequest :=
  {| pr_number := 7; pr_title := "fix: typo";
     pr_body := None; pr_user := "eve"; pr_head_ref := "typo";
     pr_base_ref := "release"; pr_base_sha := "abc123";
     pr_state := "open"; pr_merged := false;
     pr_reviews := Ok [alice_approved];
     pr_commits := Ok [commit []; commit [check "unit-test" "success"]] |}.

Definition repo_again : Repo :=
  {| pulls := [pull_unit_test_again; pull_unit_test];
     branches := [("release", "abc123"); ("main", "fff000")];
     login := "test-bot";
     requests := [IssueComment 7 "hello"] |}.

(** Alice approved, then Bob asked for changes. *)
Definition pull_changes_requested : PullRequest :=
  pull 1 (Ok [alice_approved; bob_changes]) [check "test" "success"].

(** Alice asked for changes, then approved. *)
Definition alice_changes : Review :=
  {| review_login := "alice"; review_state := "CHANGES_REQUESTED" |}.

Definition pull_approved_later : PullRequest :=
  pull 1 (Ok [alice_changes; alice_approved]) [check "test" "success"].

(** A pull request whose reviews cannot be fetched, listed before one that
    is ready to be merged. *)
Definition pull_unreachable : PullRequest :=
  pull 1 (Raise (GithubException 502)) [check "test" "success"].

Definition pull_ready : PullRequest :=
  pull 2 (Ok [alice_approved]) [check "test" "success"].

Definition repo_unreachable_first : Repo :=
  repo [pull_unreachable; pull_ready].

(** A pull request that is merged already, and still approved and green. *)
Definition pull_merged : PullRequest :=
  Forge.close_merged (pull 1 (Ok [alice_approved]) [check "test" "success"]).

(** A feature with two pull requests: an open one listed first, a merged
    one listed after it. *)
Definition user_auth (status : string) : Feature :=
  {| feature_id := "user-auth"; feature_title := "User Authentication";
     feature_priority := "high"; feature_status := status |}.

Definition titled (n : Z) (title state : string) (merged : bool)
  : PullRequest :=
  {| pr_number := n; pr_title := title; pr_body := None; pr_user := "dev";
     pr_head_ref := "feat/user-auth"; pr_base_ref := "main";
     pr_base_sha := "abc123"; pr_state := state; pr_merged := merged;
     pr_reviews := Ok []; pr_commits := Ok [] |}.

Definition repo_open_then_merged : Repo :=
  repo [titled 2 "feat: user-auth (second try)" "open" false;
        titled 1 "feat: user-auth" "closed" true].

(** An open pull request that the bot has reviewed already. *)
Definition bot_commented : Review :=
  {| review_login := "test-bot"; review_state := "COMMENTED" |}.

Definition pull_reviewed : PullRequest :=
  pull 1 (Ok [bot_commented]) [check "test" "success"].

(** An analysis that always has something to say. *)
Definition always_finds (finding : string) (pr : PullRequest)
  : M (list string) :=
  mret [finding].

(** No check run at all. *)
Definition pull_no_checks : PullRequest :=
  pull 1 (Ok [alice_approved]) [].

End Ex.

(** The texts that match a regular expression. *)
Inductive matches : Re.t → list ascii → Prop :=
| matches_eps : matches Re.Eps []
| matches_lit c : matches (Re.Lit c) [c]
| matches_dot c : c ≠ Re.newline_char → matches Re.Dot [c]
| matches_seq r s u v :
    matches r u → matches s v → matches (Re.Seq r s) (u ++ v)
| matches_alt_l r s u : matches r u → matches (Re.Alt r s) u
| matches_alt_r r s u : matches s u → matches (Re.Alt r s) u
| matches_star_nil r : matches (Re.Star r) []
| matches_star_app r u v :
    matches r u → matches (Re.Star r) v → matches (Re.Star r) (u ++ v).

(** The text has no newline. *)
Definition one_line (s : string) : Prop :=
  ¬ In Re.newline_char (list_ascii_of_string s).

(** A scope of a commit subject: nothing, or a non-empty one-line text in
    parentheses. *)
Definition is_scope (scope : string) : Prop :=
  scope = EmptyString ∨
  ∃ inner, scope = "(" +:+ inner +:+ ")" ∧
           inner ≠ EmptyString ∧ one_line inner.

(** An upper-case ASCII letter. *)
Definition is_upper (c : ascii) : bool :=
  let n := nat_of_ascii c in (Nat.leb 65 n && Nat.leb n 90)%bool.

(** The string has an upper-case ASCII letter. *)
Fixpoint has_upper (s : string) : bool :=
  match s with
  | EmptyString => false
  | String c s' => (is_upper c || has_upper s')%bool
  end.

(** A feature after the status pass: as it was, or a pending feature that
    is now completed or in progress. *)
Definition only_status_moved (feature feature' : Feature) : Prop :=
  feature' = feature ∨
  (feature_status feature = "pending" ∧
   (feature' = set_status "completed" feature ∨
    feature' = set_status "in-progress" feature)).

(** ** More inputs used in the examples *)

Module More.

(** One approval; the run named as a test has failed. *)
Definition pull_failed_test : PullRequest :=
  Ex.pull 1 (Ok [Ex.alice_approved]) [Ex.check "test" "failure"].

(** The commit message of the first request, when it is a merge. *)
Definition first_merge_message (w : Repo) : string :=
  match requests w with
  | MergeRequest _ msg _ :: _ => msg
  | _ => EmptyString
  end.

(** The merge commit message that the evaluation of [Ex.pull_tests] sends. *)
Definition message_of_pull_tests : string :=
  first_merge_message
    (snd (evaluate_pr_for_merge (Ex.dict 1) (Ex.repo [Ex.pull_tests]))).

(** A finding that blocks, and one that does not. *)
Definition blocking_finding : string := glyph_fail +:+ " Bare except clause".
Definition advisory_finding : string := "Consider using pytest fixtures".

(** An analysis that finds nothing. *)
Definition finds_nothing (pr : PullRequest) : M (list string) := mret [].

(** A feature whose id has a capital letter, and a merged pull request
    titled after it. *)
Definition oauth : Feature :=
  {| feature_id := "OAuth"; feature_title := "OAuth login";
     feature_priority := "low"; feature_status := "pending" |}.

Definition repo_oauth : Repo :=
  Ex.repo [Ex.titled 3 "feat: OAuth" "closed" true].

(** A feature whose id starts with the id of [Ex.user_auth]. *)
Definition user_authz : Feature :=
  {| feature_id := "user-authz"; feature_title := "Authorization";
     feature_priority := "low"; feature_status := "pending" |}.

(** An agent that always raises. *)
Definition failing_agent : Agent :=
  {| role := "DeveloperAgent"; process := raise (GithubException 500) |}.

Definition commit_ok : CommitInfo :=
  {| info_sha := "abc1234def"; info_message := "feat(auth): add login" |}.

Definition commit_bad : CommitInfo :=
  {| info_sha := "def4567abc"; info_message := "invalid commit message" |}.

End More.

(** * Properties *)

(** ** The monad *)

Lemma bind_unfold {A B} (m : M A) (k : A → M B) (w : Repo) :
  (m ≫= k) w =
  match m w with
  | (Ok a, w') => k a w'
  | (Raise e, w') => (Raise e, w')
  end.
Proof. reflexivity. Qed.

Lemma bind_ok {A B} (m : M A) (k : A → M B) w a w' :
  m w = (Ok a, w') → (m ≫= k) w = k a w'.
Proof. intros H. rewrite bind_unfold, H. reflexivity. Qed.

Lemma bind_raise {A B} (m : M A) (k : A → M B) w e w' :
  m w = (Raise e, w') → (m ≫= k) w = (Raise e, w').
Proof. intros H. rewrite bind_unfold, H. reflexivity. Qed.

Lemma bind_inv_ok {A B} (m : M A) (k : A → M B) w b w2 :
  (m ≫= k) w = (Ok b, w2) →
  ∃ a w1, m w = (Ok a, w1) ∧ k a w1 = (Ok b, w2).
Proof.
  rewrite bind_unfold. destruct (m w) as [[a|e] w1]; intros H.
  - eauto.
  - discriminate.
Qed.

(** A [try] whose handler returns never raises. *)
Lemma try_except_returns {A} (body : M A) (a : A) w :
  ∃ r w', try_except body (λ _, mret a) w = (Ok r, w').
Proof.
  unfold try_except. destruct (body w) as [[r|e] w']; eauto.
Qed.

(** ** [check_merge_criteria] *)

(** The four assignments and the four guarded appends, on any four values. *)
Lemma status_after_checks (cp : bool) (tp : option bool) (rr bu : bool) :
  let s :=
    Status.block_unless bu "Branch must be up to date with base"
      (Status.set_branch_up_to_date bu
        (Status.block_unless rr "Required reviews must be approved"
          (Status.set_review_requirements_met rr
            (Status.block_unless (Py.truthy tp) "All tests must pass"
              (Status.set_tests_passed tp
                (Status.block_unless cp "CI checks must pass"
                  (Status.set_checks_passed cp initial_status))))))) in
  checks_passed s = cp ∧ tests_passed s = tp ∧
  review_requirements_met s = rr ∧ branch_up_to_date s = bu ∧
  can_merge s = forallb id (sub_checks s) ∧
  blocking_issues s =
    (if checks_passed s then [] else ["CI checks must pass"]) ++
    (if Py.truthy (tests_passed s) then [] else ["All tests must pass"]) ++
    (if review_requirements_met s then []
     else ["Required reviews must be approved"]) ++
    (if branch_up_to_date s then []
     else ["Branch must be up to date with base"]).
Proof. destruct cp, tp as [[]|], rr, bu; repeat split. Qed.

(** The fetches never write. *)
Lemma get_branch_sha_reads ref w : snd (Forge.get_branch_sha ref w) = w.
Proof.
  unfold Forge.get_branch_sha. destruct (List.find _ (branches w)); reflexivity.
Qed.

Lemma reversed_0_reads {A} (xs : list A) w : snd (reversed_0 xs w) = w.
Proof. unfold reversed_0. destruct (rev xs); reflexivity. Qed.

Lemma reversed_0_last {A} (xs : list A) (x : A) w :
  reversed_0 (xs ++ [x]) w = (Ok x, w).
Proof. unfold reversed_0. rewrite rev_unit. reflexivity. Qed.

Lemma reversed_0_inv {A} (xs : list A) (x : A) w w' :
  reversed_0 xs w = (Ok x, w') → ∃ earlier, xs = earlier ++ [x].
Proof.
  unfold reversed_0. destruct (rev xs) as [|c l] eqn:E; [discriminate|].
  intros [= -> _]. exists (rev l).
  rewrite <- (rev_involutive xs), E. reflexivity.
Qed.

(** What a returned status is made of. *)
Lemma check_merge_criteria_inv pr w s w' :
  check_merge_criteria pr w = (Ok s, w') →
  ∃ earlier head checks reviews base,
    pr_commits pr = Ok (earlier ++ [head]) ∧
    commit_check_runs head = Ok checks ∧
    pr_reviews pr = Ok reviews ∧
    Forge.get_branch_sha (pr_base_ref pr) w = (Ok base, w) ∧
    w' = w ∧
    checks_passed s = forallb is_success checks ∧
    tests_passed s = Py.and_then (List.find is_test_check checks) is_success ∧
    review_requirements_met s =
      (Nat.leb 1 (Py.count "APPROVED" (List.map review_state reviews))
       && negb (Py.mem "CHANGES_REQUESTED" (List.map review_state reviews)))%bool ∧
    branch_up_to_date s = String.eqb (pr_base_sha pr) base ∧
    can_merge s = forallb id (sub_checks s) ∧
    blocking_issues s =
      (if checks_passed s then [] else ["CI checks must pass"]) ++
      (if Py.truthy (tests_passed s) then [] else ["All tests must pass"]) ++
      (if review_requirements_met s then []
       else ["Required reviews must be approved"]) ++
      (if branch_up_to_date s then []
       else ["Branch must be up to date with base"]).
Proof.
  unfold check_merge_criteria, Forge.get_commits, Forge.get_check_runs,
    Forge.get_reviews.
  intros H.
  apply bind_inv_ok in H as (commits & w1 & Hc & H).
  apply bind_inv_ok in H as (head & w2 & Hh & H).
  apply bind_inv_ok in H as (checks & w3 & Hk & H).
  apply bind_inv_ok in H as (reviews & w4 & Hr & H).
  apply bind_inv_ok in H as (base & w5 & Hb & H).
  unfold fetch in *. injection Hc as Hc <-. injection Hk as Hk <-.
  injection Hr as Hr <-.
  pose proof (reversed_0_reads commits w) as Hw. rewrite Hh in Hw.
  simpl in Hw. subst w2.
  apply reversed_0_inv in Hh as [earlier ->].
  pose proof (get_branch_sha_reads (pr_base_ref pr) w) as Hw. rewrite Hb in Hw.
  simpl in Hw. subst w5.
  exists earlier, head, checks, reviews, base.
  repeat (split; [done|]).
  unfold mret, M_ret in H. injection H as <- <-.
  split; [done|].
  apply (status_after_checks (forallb is_success checks)
           (Py.and_then (List.find is_test_check checks) is_success)
           (Nat.leb 1 (Py.count "APPROVED" (List.map review_state reviews))
            && negb (Py.mem "CHANGES_REQUESTED"
                            (List.map review_state reviews)))%bool
           (String.eqb (pr_base_sha pr) base)).
Qed.

(** When the four fetches answer, a status is returned. *)
Lemma check_merge_criteria_returns pr w earlier head checks reviews base :
  pr_commits pr = Ok (earlier ++ [head]) →
  commit_check_runs head = Ok checks →
  pr_reviews pr = Ok reviews →
  Forge.get_branch_sha (pr_base_ref pr) w = (Ok base, w) →
  ∃ s, check_merge_criteria pr w = (Ok s, w).
Proof.
  intros Hc Hk Hr Hb.
  unfold check_merge_criteria, Forge.get_commits, Forge.get_check_runs,
    Forge.get_reviews.
  rewrite Hc, Hr.
  erewrite bind_ok by reflexivity.
  erewrite bind_ok by apply reversed_0_last.
  rewrite Hk.
  erewrite bind_ok by reflexivity.
  erewrite bind_ok by reflexivity.
  erewrite bind_ok by exact Hb.
  eexists. reflexivity.
Qed.

(** The evaluation of the criteria only reads the forge. *)
Lemma check_merge_criteria_reads pr w : snd (check_merge_criteria pr w) = w.
Proof.
  unfold check_merge_criteria, Forge.get_commits, Forge.get_check_runs,
    Forge.get_reviews, fetch.
  rewrite bind_unfold. destruct (pr_commits pr) as [commits|e]; [|done].
  rewrite bind_unfold.
  pose proof (reversed_0_reads commits w) as Hw.
  destruct (reversed_0 commits w) as [[head|e] w1]; simpl in Hw; subst w1;
    [|done].
  rewrite bind_unfold. destruct (commit_check_runs head) as [checks|e]; [|done].
  rewrite bind_unfold. destruct (pr_reviews pr) as [reviews|e]; [|done].
  rewrite bind_unfold.
  pose proof (get_branch_sha_reads (pr_base_ref pr) w) as Hw.
  destruct (Forge.get_branch_sha (pr_base_ref pr) w) as [[base|e] w1];
    simpl in Hw; subst w1; done.
Qed.

(** C1. Whenever [check_merge_criteria] returns a status, [can_merge] is
    true exactly when the four sub-checks are all true, the number of
    entries of [blocking_issues] is the number of sub-checks that are not
    true, and the entries are those of the failing sub-checks, one each, in
    the order of the checks. *)
Theorem can_merge_iff_all_sub_checks pr w s w' :
  check_merge_criteria pr w = (Ok s, w') →
  (can_merge s = true ↔
     checks_passed s = true ∧ Py.truthy (tests_passed s) = true ∧
     review_requirements_met s = true ∧ branch_up_to_date s = true) ∧
  List.length (blocking_issues s)
    = List.length (List.filter negb (sub_checks s)) ∧
  blocking_issues s =
    (if checks_passed s then [] else ["CI checks must pass"]) ++
    (if Py.truthy (tests_passed s) then [] else ["All tests must pass"]) ++
    (if review_requirements_met s then []
     else ["Required reviews must be approved"]) ++
    (if branch_up_to_date s then []
     else ["Branch must be up to date with base"]).
Proof.
  intros H.
  apply check_merge_criteria_inv in H
    as (_ & _ & _ & _ & _ & _ & _ & _ & _ & _ & _ & _ & _ & _ & Hcan & Hblock).
  split; [|split; [|exact Hblock]].
  - rewrite Hcan. unfold sub_checks. simpl.
    destruct (checks_passed s), (Py.truthy (tests_passed s)),
      (review_requirements_met s), (branch_up_to_date s); simpl; intuition.
  - rewrite Hblock. unfold sub_checks.
    destruct (checks_passed s), (Py.truthy (tests_passed s)),
      (review_requirements_met s), (branch_up_to_date s); reflexivity.
Qed.

Lemma can_merge_iff_all_sub_checks_witness :
  ∃ s, check_merge_criteria Ex.pull_unit_test (Ex.repo [Ex.pull_unit_test])
         = (Ok s, Ex.repo [Ex.pull_unit_test]) ∧
       can_merge s = false ∧
       List.length (blocking_issues s) = 1%nat ∧
       List.length (blocking_issues s)
         = List.length (List.filter negb (sub_checks s)).
Proof.
  eexists. split; [vm_compute; reflexivity|].
  split; [reflexivity|]. split; [reflexivity|].
  apply (can_merge_iff_all_sub_checks Ex.pull_unit_test
           (Ex.repo [Ex.pull_unit_test]) _ (Ex.repo [Ex.pull_unit_test])).
  vm_compute; reflexivity.
Defined.

(** The result of the evaluation, by the answers of the fetches. *)
Lemma check_merge_criteria_cases pr w :
  fst (check_merge_criteria pr w) =
  match fst (head_check_runs pr w) with
  | Raise e => Raise e
  | Ok checks =>
      match pr_reviews pr with
      | Raise e => Raise e
      | Ok reviews =>
          match fst (Forge.get_branch_sha (pr_base_ref pr) w) with
          | Raise e => Raise e
          | Ok base => Ok (status_of checks reviews (pr_base_sha pr) base)
          end
      end
  end.
Proof.
  unfold check_merge_criteria, head_check_runs, Forge.get_commits,
    Forge.get_check_runs, Forge.get_reviews, fetch.
  rewrite !bind_unfold. destruct (pr_commits pr) as [commits|e]; [|done].
  rewrite !bind_unfold.
  pose proof (reversed_0_reads commits w) as Hw.
  destruct (reversed_0 commits w) as [[head|e] w1]; simpl in Hw; subst w1;
    [|done].
  rewrite !bind_unfold.
  destruct (commit_check_runs head) as [checks|e]; [|done].
  simpl. rewrite !bind_unfold. destruct (pr_reviews pr) as [reviews|e]; [|done].
  rewrite bind_unfold.
  destruct (Forge.get_branch_sha (pr_base_ref pr) w) as [[base|e] w1]; done.
Qed.

(** C7. Two evaluations of the merge criteria on the same input state (the
    check runs of the head commit, the reviews, the recorded base sha and
    the sha of the base branch, each as fetched) give the same result,
    whatever else differs between the two pull requests or the two
    repositories; an evaluation leaves the repository as it found it, so
    that running it twice in a row gives twice the result of running it
    once. *)
Theorem check_merge_criteria_deterministic pr1 w1 pr2 w2 :
  input_state pr1 w1 = input_state pr2 w2 →
  fst (check_merge_criteria pr1 w1) = fst (check_merge_criteria pr2 w2) ∧
  snd (check_merge_criteria pr1 w1) = w1 ∧
  (s1 ← check_merge_criteria pr1; s2 ← check_merge_criteria pr1;
   mret (s1, s2)) w1
  = (s ← check_merge_criteria pr1; mret (s, s)) w1.
Proof.
  intros H. unfold input_state in H. injection H as H1 H2 H3 H4.
  split; [|split].
  - rewrite !check_merge_criteria_cases, H1, H2, H3, H4. reflexivity.
  - apply check_merge_criteria_reads.
  - rewrite !bind_unfold.
    pose proof (check_merge_criteria_reads pr1 w1) as Hw.
    destruct (check_merge_criteria pr1 w1) as [[s|e] w'] eqn:E;
      simpl in Hw; subst w'; [|reflexivity].
    rewrite bind_unfold, E. reflexivity.
Qed.

Lemma check_merge_criteria_deterministic_witness :
  input_state Ex.pull_unit_test (Ex.repo [Ex.pull_unit_test])
    = input_state Ex.pull_unit_test_again Ex.repo_again ∧
  fst (check_merge_criteria Ex.pull_unit_test (Ex.repo [Ex.pull_unit_test]))
    = fst (check_merge_criteria Ex.pull_unit_test_again Ex.repo_again).
Proof.
  split; [reflexivity|].
  apply (check_merge_criteria_deterministic Ex.pull_unit_test
           (Ex.repo [Ex.pull_unit_test]) Ex.pull_unit_test_again
           Ex.repo_again).
  reflexivity.
Defined.

(** C9. When the head commit has no check run and the other fetches answer,
    the evaluation returns a status in which [checks_passed] is true,
    [tests_passed] is [None], [can_merge] is false, and [blocking_issues]
    has "All tests must pass" and has not "CI checks must pass". *)
Theorem no_check_runs_blocks_on_tests pr w earlier head reviews base :
  pr_commits pr = Ok (earlier ++ [head]) →
  commit_check_runs head = Ok [] →
  pr_reviews pr = Ok reviews →
  Forge.get_branch_sha (pr_base_ref pr) w = (Ok base, w) →
  ∃ s, check_merge_criteria pr w = (Ok s, w) ∧
       checks_passed s = true ∧
       tests_passed s = None ∧
       can_merge s = false ∧
       In "All tests must pass" (blocking_issues s) ∧
       ¬ In "CI checks must pass" (blocking_issues s).
Proof.
  intros Hc Hk Hr Hb.
  destruct (check_merge_criteria_returns pr w earlier head [] reviews base)
    as [s Hs]; try assumption.
  exists s. split; [exact Hs|].
  apply check_merge_criteria_inv in Hs
    as (earlier' & head' & checks' & reviews' & base' & Hc' & Hk' & _ & _ & _
        & Hcp & Htp & _ & _ & Hcan & Hblock).
  rewrite Hc in Hc'. injection Hc' as Hc'.
  apply app_inj_tail in Hc' as [_ <-].
  rewrite Hk in Hk'. injection Hk' as <-.
  simpl in Hcp, Htp.
  rewrite Hcan, Hblock. unfold sub_checks. rewrite Hcp, Htp. simpl.
  repeat split.
  - destruct (review_requirements_met s), (branch_up_to_date s); simpl; auto.
  - destruct (review_requirements_met s), (branch_up_to_date s); simpl;
      intuition discriminate.
Qed.

Lemma no_check_runs_blocks_on_tests_witness :
  ∃ s, check_merge_criteria Ex.pull_no_checks (Ex.repo [Ex.pull_no_checks])
         = (Ok s, Ex.repo [Ex.pull_no_checks]) ∧
       checks_passed s = true ∧
       tests_passed s = None ∧
       can_merge s = false ∧
       In "All tests must pass" (blocking_issues s) ∧
       ¬ In "CI checks must pass" (blocking_issues s).
Proof.
  apply (no_check_runs_blocks_on_tests Ex.pull_no_checks
           (Ex.repo [Ex.pull_no_checks]) [] (Ex.commit [])
           [Ex.alice_approved] "abc123"); reflexivity.
Defined.

(** ** The approval gate *)

Lemma get_pull_inv n w pr w' :
  Forge.get_pull n w = (Ok pr, w') →
  w' = w ∧ List.find (Forge.has_number n) (pulls w) = Some pr ∧
  pr_number pr = n.
Proof.
  unfold Forge.get_pull.
  destruct (List.find _ (pulls w)) as [p|] eqn:E; [|discriminate].
  intros [= -> ->]. repeat split.
  apply find_some in E as [_ E]. unfold Forge.has_number in E. lia.
Qed.

Lemma latest_reviews_snoc reviews r :
  latest_reviews (reviews ++ [r])
  = <[review_login r := review_state r]> (latest_reviews reviews).
Proof. unfold latest_reviews. rewrite foldl_snoc. reflexivity. Qed.

(** The dictionary holds, for each reviewer, the state listed last. *)
Lemma latest_reviews_lookup reviews login :
  latest_reviews reviews !! login = latest_state login reviews.
Proof.
  induction reviews as [|r reviews IH] using rev_ind.
  - reflexivity.
  - rewrite latest_reviews_snoc. unfold latest_state in *.
    rewrite rev_unit. simpl.
    destruct (String.eqb_spec (review_login r) login) as [->|Hne].
    + rewrite lookup_insert_eq. reflexivity.
    + rewrite lookup_insert_ne by done. exact IH.
Qed.

Lemma values_elem (m : gmap string string) (s : string) :
  s ∈ values m ↔ ∃ login, m !! login = Some s.
Proof.
  unfold values. rewrite list_elem_of_fmap. split.
  - intros [[login s'] [-> H]]. exists login.
    apply elem_of_map_to_list in H. exact H.
  - intros [login H]. exists (login, s). split; [reflexivity|].
    apply elem_of_map_to_list. exact H.
Qed.

Lemma mem_elem (x : string) (l : list string) :
  Py.mem x l = true ↔ x ∈ l.
Proof.
  unfold Py.mem. rewrite existsb_exists, list_elem_of_In. split.
  - intros [y [Hy E]]. apply String.eqb_eq in E. subst. exact Hy.
  - intros H. exists x. split; [exact H | apply String.eqb_refl].
Qed.

Lemma count_positive (x : string) (l : list string) :
  Nat.leb 1 (List.length (List.filter (String.eqb x) l)) = true ↔ x ∈ l.
Proof.
  rewrite <- mem_elem. unfold Py.mem.
  induction l as [|y l IH]; simpl; [done|].
  destruct (String.eqb x y); simpl; [done | exact IH].
Qed.

(** [is_pr_approved] answers the gate of the latest-per-reviewer states. *)
Lemma is_pr_approved_spec pr w reviews :
  pr_reviews pr = Ok reviews →
  ∃ b, is_pr_approved pr w = (Ok b, w) ∧ (b = false ↔ gate_fails reviews).
Proof.
  intros Hr. unfold is_pr_approved, Forge.get_reviews, fetch.
  rewrite bind_unfold, Hr. eexists. split; [reflexivity|].
  rewrite andb_false_iff, negb_false_iff, mem_elem, values_elem.
  rewrite <- not_true_iff_false, count_positive, values_elem.
  unfold gate_fails.
  setoid_rewrite latest_reviews_lookup.
  split; (intros [H|H]; [left|right]); try exact H.
  - intros login E. apply H. eauto.
  - intros [login E]. exact (H login E).
Qed.

(** C4. When the latest-per-reviewer states of a pull request have no
    APPROVED or have a CHANGES_REQUESTED, its evaluation returns at once
    and leaves the repository as it was: the forge receives no merge
    request and no comment. *)
Theorem unapproved_pull_request_is_skipped d w pr reviews :
  Forge.get_pull (d_number d) w = (Ok pr, w) →
  pr_reviews pr = Ok reviews →
  gate_fails reviews →
  evaluate_pr_for_merge d w = (Ok (), w).
Proof.
  intros Hp Hr Hg. unfold evaluate_pr_for_merge.
  erewrite bind_ok by exact Hp.
  destruct (is_pr_approved_spec pr w reviews Hr) as (b & Hb & Hspec).
  erewrite bind_ok by exact Hb.
  apply Hspec in Hg. subst b. reflexivity.
Qed.

Lemma unapproved_pull_request_is_skipped_witness :
  gate_fails [Ex.alice_approved; Ex.bob_changes] ∧
  evaluate_pr_for_merge (Ex.dict 1) (Ex.repo [Ex.pull_changes_requested])
  = (Ok (), Ex.repo [Ex.pull_changes_requested]).
Proof.
  assert (gate_fails [Ex.alice_approved; Ex.bob_changes]) as Hg.
  { right. exists "bob". reflexivity. }
  split; [exact Hg|].
  apply (unapproved_pull_request_is_skipped (Ex.dict 1)
           (Ex.repo [Ex.pull_changes_requested]) Ex.pull_changes_requested
           [Ex.alice_approved; Ex.bob_changes]);
    [reflexivity | reflexivity | exact Hg].
Defined.

(** C3. On the reviews [alice: CHANGES_REQUESTED; alice: APPROVED] the two
    evaluations of the gate differ: [is_pr_approved], which keeps Alice's
    latest state only, lets the pull request through, and
    [check_merge_criteria], which looks at every listed state, finds the
    review requirements unmet; the evaluation then posts a blocking comment
    on a pull request whose only reviewer has approved it. *)
Theorem gate_differs_for_repeated_reviewer :
  let w := Ex.repo [Ex.pull_approved_later] in
  is_pr_approved Ex.pull_approved_later w = (Ok true, w) ∧
  (∃ s, check_merge_criteria Ex.pull_approved_later w = (Ok s, w) ∧
        review_requirements_met s = false ∧
        blocking_issues s = ["Required reviews must be approved"]) ∧
  ∃ comment, evaluate_pr_for_merge (Ex.dict 1) w
             = (Ok (), Forge.logged (IssueComment 1 comment) w).
Proof.
  split; [vm_compute; reflexivity|]. split.
  - eexists. split; [vm_compute; reflexivity|]. split; reflexivity.
  - eexists. vm_compute. reflexivity.
Qed.

(** ** Substrings *)

Lemma append_cons (c : ascii) (a s : string) :
  String c a +:+ s = String c (a +:+ s).
Proof. reflexivity. Qed.

Lemma prefix_nil (s : string) : String.prefix EmptyString s = true.
Proof. destruct s; reflexivity. Qed.

Lemma prefix_refl_app (p s : string) : String.prefix p (p +:+ s) = true.
Proof.
  induction p as [|a p IH]; [apply prefix_nil|].
  rewrite append_cons. simpl.
  destruct (ascii_dec a a); [exact IH | congruence].
Qed.

Lemma prefix_refl (p : string) : String.prefix p p = true.
Proof.
  induction p as [|a p IH]; [reflexivity|]. simpl.
  destruct (ascii_dec a a); [exact IH | congruence].
Qed.

Lemma prefix_app_l (p s t : string) :
  String.prefix p s = true → String.prefix p (s +:+ t) = true.
Proof.
  revert s. induction p as [|a p IH]; intros s; [intros _; apply prefix_nil|].
  destruct s as [|b s]; [discriminate|].
  rewrite append_cons. simpl.
  destruct (ascii_dec a b); [apply IH | discriminate].
Qed.

Lemma contains_prefix (s sub : string) :
  String.prefix sub s = true → Py.contains s sub = true.
Proof. intros H. destruct s; cbn [Py.contains]; rewrite H; reflexivity. Qed.

Lemma contains_app_r (a s sub : string) :
  Py.contains s sub = true → Py.contains (a +:+ s) sub = true.
Proof.
  intros H. induction a as [|c a IH]; [exact H|].
  rewrite append_cons. cbn [Py.contains]. rewrite IH. apply orb_true_r.
Qed.

Lemma contains_app_l (s t sub : string) :
  Py.contains s sub = true → Py.contains (s +:+ t) sub = true.
Proof.
  induction s as [|c s IH]; [|rewrite append_cons]; cbn [Py.contains].
  - rewrite orb_false_r. intros H. apply contains_prefix.
    apply (prefix_app_l sub EmptyString t H).
  - intros H. apply orb_true_iff in H as [H|H].
    + rewrite <- append_cons, (prefix_app_l sub (String c s) t H).
      reflexivity.
    + rewrite (IH H). apply orb_true_r.
Qed.

Lemma contains_self_app (s t : string) : Py.contains (s +:+ t) s = true.
Proof. apply contains_prefix, prefix_refl_app. Qed.

(** A part of a joined text is in the text. *)
Lemma contains_join (sep x : string) (parts : list string) :
  In x parts → Py.contains (Py.join sep parts) x = true.
Proof.
  unfold Py.join. induction parts as [|y rest IH]; [intros []|].
  intros [->|Hin].
  - destruct rest; simpl.
    + apply contains_prefix, prefix_refl.
    + apply contains_self_app.
  - destruct rest as [|z rest]; [destruct Hin|].
    change (String.concat sep (y :: z :: rest))
      with (y +:+ sep +:+ String.concat sep (z :: rest)).
    apply contains_app_r, contains_app_r, IH, Hin.
Qed.

(** ** Running one evaluation *)

Lemma check_merge_criteria_run pr w earlier head checks reviews base :
  pr_commits pr = Ok (earlier ++ [head]) →
  commit_check_runs head = Ok checks →
  pr_reviews pr = Ok reviews →
  Forge.get_branch_sha (pr_base_ref pr) w = (Ok base, w) →
  check_merge_criteria pr w
  = (Ok (status_of checks reviews (pr_base_sha pr) base), w).
Proof.
  intros Hc Hk Hr Hb.
  pose proof (check_merge_criteria_cases pr w) as Hfst.
  pose proof (check_merge_criteria_reads pr w) as Hsnd.
  destruct (check_merge_criteria pr w) as [r w']. simpl in Hfst, Hsnd.
  subst w'. f_equal. rewrite Hfst, Hr, Hb. simpl.
  unfold head_check_runs, Forge.get_commits, Forge.get_check_runs, fetch.
  rewrite Hc. erewrite bind_ok by reflexivity.
  erewrite bind_ok by apply reversed_0_last. rewrite Hk. reflexivity.
Qed.

Lemma merge_pr_run n msg w pr :
  Forge.get_pull n w = (Ok pr, w) →
  merge_pr n msg w
  = (Ok (Forge.mergeable n w),
     if Forge.mergeable n w
     then Forge.received (MergeRequest n msg true) n Forge.close_merged w
     else Forge.logged (MergeRequest n msg false) w).
Proof.
  intros Hp. destruct (get_pull_inv _ _ _ _ Hp) as (_ & _ & Hn).
  unfold merge_pr, try_except. erewrite bind_ok by exact Hp.
  rewrite bind_unfold. unfold Forge.merge. rewrite Hn.
  destruct (Forge.mergeable n w); reflexivity.
Qed.

Lemma merge_pr_requests n msg w pr :
  Forge.get_pull n w = (Ok pr, w) →
  requests (snd (merge_pr n msg w))
  = requests w ++ [MergeRequest n msg (Forge.mergeable n w)].
Proof.
  intros Hp. rewrite (merge_pr_run n msg w pr Hp).
  destruct (Forge.mergeable n w); reflexivity.
Qed.

Lemma comment_on_pr_run n comment w pr :
  Forge.get_pull n w = (Ok pr, w) →
  comment_on_pr n comment w
  = (Ok true, Forge.logged (IssueComment n comment) w).
Proof.
  intros Hp. destruct (get_pull_inv _ _ _ _ Hp) as (_ & _ & Hn).
  unfold comment_on_pr, try_except. erewrite bind_ok by exact Hp.
  rewrite bind_unfold. unfold Forge.create_issue_comment. rewrite Hn.
  reflexivity.
Qed.

(** The commit message has the title and the four lines of the checklist. *)
Lemma generate_merge_commit_message_run pr s w reviews :
  pr_reviews pr = Ok reviews →
  ∃ msg, generate_merge_commit_message pr s w = (Ok msg, w) ∧
    Py.contains msg (pr_title pr) = true ∧
    Py.contains msg ("- CI Checks: " +:+ glyph (checks_passed s)) = true ∧
    Py.contains msg ("- Tests: " +:+ glyph (Py.truthy (tests_passed s)))
      = true ∧
    Py.contains msg ("- Reviews: " +:+ glyph (review_requirements_met s))
      = true ∧
    Py.contains msg ("- Branch Status: " +:+ glyph (branch_up_to_date s))
      = true.
Proof.
  intros Hr. unfold generate_merge_commit_message, Forge.get_reviews, fetch.
  rewrite Hr. erewrite bind_ok by reflexivity.
  eexists. split; [reflexivity|].
  repeat split; apply contains_join, in_or_app; left; simpl; tauto.
Qed.

(** An evaluation that passes the gate and gets a status. *)
Lemma evaluate_pr_for_merge_run d w pr s :
  Forge.get_pull (d_number d) w = (Ok pr, w) →
  is_pr_approved pr w = (Ok true, w) →
  check_merge_criteria pr w = (Ok s, w) →
  evaluate_pr_for_merge d w
  = (if can_merge s
     then commit_message ← generate_merge_commit_message pr s;
          _ ← merge_pr (d_number d) commit_message;
          mret ()
     else _ ← comment_on_pr (d_number d) (generate_blocking_comment s);
          mret ()) w.
Proof.
  intros Hp Ha Hs. unfold evaluate_pr_for_merge.
  erewrite bind_ok by exact Hp. erewrite bind_ok by exact Ha.
  simpl. erewrite bind_ok by exact Hs. reflexivity.
Qed.

(** The status for one approval, one successful run and a matching sha. *)
Lemma status_of_single_run (name reviewer sha : string) :
  let s :=
    status_of [{| check_name := name; check_conclusion := "success" |}]
      [{| review_login := reviewer; review_state := "APPROVED" |}] sha sha in
  let test := Py.startswith (Py.lower name) "test" in
  checks_passed s = true ∧
  Py.truthy (tests_passed s) = test ∧
  review_requirements_met s = true ∧
  branch_up_to_date s = true ∧
  can_merge s = test ∧
  blocking_issues s = if test then [] else ["All tests must pass"].
Proof.
  unfold status_of.
  assert (forallb is_success
            [{| check_name := name; check_conclusion := "success" |}] = true)
    as -> by reflexivity.
  assert (Py.and_then
            (List.find is_test_check
               [{| check_name := name; check_conclusion := "success" |}])
            is_success
          = if Py.startswith (Py.lower name) "test" then Some true else None)
    as ->.
  { cbn [List.find]. unfold is_test_check. cbn [check_name].
    destruct (Py.startswith (Py.lower name) "test"); reflexivity. }
  assert ((Nat.leb 1
             (Py.count "APPROVED"
                (List.map review_state
                   [{| review_login := reviewer;
                       review_state := "APPROVED" |}]))
           && negb (Py.mem "CHANGES_REQUESTED"
                      (List.map review_state
                         [{| review_login := reviewer;
                             review_state := "APPROVED" |}])))%bool = true)
    as -> by reflexivity.
  rewrite String.eqb_refl.
  destruct (Py.startswith (Py.lower name) "test"); repeat split.
Qed.

(** C2, as the code has it. With one approval, one successful check run
    named [name] on the head commit and a base sha that matches,
    [can_merge] is true exactly when the lower-cased [name] starts with
    "test". Then the forge receives exactly one merge request, whose commit
    message contains the title and the passing glyph on each of the four
    lines of the checklist. Otherwise (as for "unit-test") the only
    blocking issue is "All tests must pass" and the forge receives the
    blocking comment and no merge request. *)
Theorem single_passing_check_scenario d w pr reviewer name earlier head :
  Forge.get_pull (d_number d) w = (Ok pr, w) →
  pr_reviews pr
    = Ok [{| review_login := reviewer; review_state := "APPROVED" |}] →
  pr_commits pr = Ok (earlier ++ [head]) →
  commit_check_runs head
    = Ok [{| check_name := name; check_conclusion := "success" |}] →
  Forge.get_branch_sha (pr_base_ref pr) w = (Ok (pr_base_sha pr), w) →
  ∃ s, check_merge_criteria pr w = (Ok s, w) ∧
    can_merge s = Py.startswith (Py.lower name) "test" ∧
    if Py.startswith (Py.lower name) "test" then
      ∃ msg,
        fst (evaluate_pr_for_merge d w) = Ok () ∧
        requests (snd (evaluate_pr_for_merge d w))
          = requests w
            ++ [MergeRequest (d_number d) msg
                  (Forge.mergeable (d_number d) w)] ∧
        Py.contains msg (pr_title pr) = true ∧
        Py.contains msg ("- CI Checks: " +:+ glyph_pass) = true ∧
        Py.contains msg ("- Tests: " +:+ glyph_pass) = true ∧
        Py.contains msg ("- Reviews: " +:+ glyph_pass) = true ∧
        Py.contains msg ("- Branch Status: " +:+ glyph_pass) = true
    else
      blocking_issues s = ["All tests must pass"] ∧
      evaluate_pr_for_merge d w
      = (Ok (),
         Forge.logged
           (IssueComment (d_number d) (generate_blocking_comment s)) w).
Proof.
  intros Hp Hr Hc Hk Hb.
  pose proof (check_merge_criteria_run pr w _ _ _ _ _ Hc Hk Hr Hb) as Hs.
  eexists. split; [exact Hs|].
  assert (is_pr_approved pr w = (Ok true, w)) as Ha.
  { destruct (is_pr_approved_spec pr w _ Hr) as ([|] & Hb' & Hspec);
      [exact Hb'|].
    destruct (proj1 Hspec eq_refl) as [Hno|[u Hcr]]; exfalso.
    - apply (Hno reviewer). unfold latest_state. simpl.
      rewrite String.eqb_refl. reflexivity.
    - unfold latest_state in Hcr. simpl in Hcr.
      destruct (String.eqb reviewer u); discriminate. }
  rewrite (evaluate_pr_for_merge_run d w pr _ Hp Ha Hs).
  destruct (status_of_single_run name reviewer (pr_base_sha pr))
    as (Hcp & Htp & Hrr & Hbu & Hcan & Hblock).
  destruct (generate_merge_commit_message_run pr
              (status_of [{| check_name := name;
                             check_conclusion := "success" |}]
                 [{| review_login := reviewer;
                     review_state := "APPROVED" |}]
                 (pr_base_sha pr) (pr_base_sha pr)) w _ Hr)
    as (msg & Hm & Ht & H1 & H2 & H3 & H4).
  rewrite Hcp in H1. rewrite Htp in H2. rewrite Hrr in H3. rewrite Hbu in H4.
  rewrite Hcan, Hblock. split; [reflexivity|].
  destruct (Py.startswith (Py.lower name) "test").
  - exists msg. erewrite bind_ok by exact Hm.
    rewrite bind_unfold, (merge_pr_run _ msg w pr Hp).
    split; [reflexivity|]. split; [|auto].
    simpl. destruct (Forge.mergeable (d_number d) w); reflexivity.
  - split; [reflexivity|].
    rewrite bind_unfold.
    erewrite comment_on_pr_run by exact Hp. reflexivity.
Qed.

Lemma single_passing_check_scenario_witness :
  ∃ msg,
    requests (snd (evaluate_pr_for_merge (Ex.dict 1)
                     (Ex.repo [Ex.pull_tests])))
      = [MergeRequest 1 msg true] ∧
    Py.contains msg "feat: add user auth" = true ∧
    Py.contains msg ("- Tests: " +:+ glyph_pass) = true.
Proof.
  destruct (single_passing_check_scenario (Ex.dict 1)
              (Ex.repo [Ex.pull_tests]) Ex.pull_tests "alice"
              "Tests / unit" [] (Ex.commit [Ex.check "Tests / unit" "success"])
              eq_refl eq_refl eq_refl eq_refl eq_refl)
    as (s & _ & _ & H).
  change (Py.startswith (Py.lower "Tests / unit") "test") with true in H.
  destruct H as (msg & _ & Hreq & Ht & _ & H2 & _).
  exists msg. split; [exact Hreq|]. split; [exact Ht | exact H2].
Defined.

(** C2 as stated fails: for the run named "unit-test" the status has
    [can_merge] false, and the forge receives a comment, not a merge. *)
Lemma unit_test_scenario_is_blocked :
  let w := Ex.repo [Ex.pull_unit_test] in
  is_pr_approved Ex.pull_unit_test w = (Ok true, w) ∧
  (∃ s, check_merge_criteria Ex.pull_unit_test w = (Ok s, w) ∧
        can_merge s = false ∧ tests_passed s = None ∧
        blocking_issues s = ["All tests must pass"]) ∧
  ∃ comment,
    evaluate_pr_for_merge (Ex.dict 1) w
    = (Ok (), Forge.logged (IssueComment 1 comment) w) ∧
    ∀ msg accepted,
      ¬ In (MergeRequest 1 msg accepted)
           (requests (snd (evaluate_pr_for_merge (Ex.dict 1) w))).
Proof.
  split; [vm_compute; reflexivity|]. split.
  - eexists. split; [vm_compute; reflexivity|]. repeat split.
  - eexists. split; [vm_compute; reflexivity|].
    intros msg accepted H. vm_compute in H. destruct H as [H|[]].
    discriminate H.
Qed.

(** ** Reading and writing *)

Lemma reads_ret {A} (a : A) : reads (mret a : M A).
Proof. intros w. reflexivity. Qed.

Lemma reads_fetch {A} (r : result A) : reads (fetch r).
Proof. intros w. reflexivity. Qed.

Lemma reads_bind {A B} (m : M A) (k : A → M B) :
  reads m → (∀ a, reads (k a)) → reads (m ≫= k).
Proof.
  intros Hm Hk w. rewrite bind_unfold. specialize (Hm w).
  destruct (m w) as [[a|e] w']; simpl in Hm; subst w'; [apply Hk | done].
Qed.

Lemma reads_get_pull n : reads (Forge.get_pull n).
Proof.
  intros w. unfold Forge.get_pull. destruct (List.find _ (pulls w)); done.
Qed.

Lemma reads_is_pr_approved pr : reads (is_pr_approved pr).
Proof.
  apply reads_bind; [apply reads_fetch | intros; apply reads_ret].
Qed.

Lemma reads_generate_merge_commit_message pr s :
  reads (generate_merge_commit_message pr s).
Proof.
  apply reads_bind; [apply reads_fetch | intros; apply reads_ret].
Qed.

Lemma reads_inv {A} (m : M A) w r w' : reads m → m w = (r, w') → w' = w.
Proof. intros Hm E. specialize (Hm w). rewrite E in Hm. exact Hm. Qed.

(** [merge_pr] and [comment_on_pr] catch whatever is raised. *)
Lemma merge_pr_returns n msg w : ∃ b w', merge_pr n msg w = (Ok b, w').
Proof.
  unfold merge_pr, try_except.
  match goal with |- context [match ?m w with _ => _ end] =>
    destruct (m w) as [[b|e] w'] end; eauto.
Qed.

Lemma comment_on_pr_returns n comment w :
  ∃ b w', comment_on_pr n comment w = (Ok b, w').
Proof.
  unfold comment_on_pr, try_except.
  match goal with |- context [match ?m w with _ => _ end] =>
    destruct (m w) as [[b|e] w'] end; eauto.
Qed.

(** What one evaluation can do to the repository: nothing, one comment, or
    one call of [merge_pr]. *)
Lemma evaluate_pr_for_merge_effect d w :
  snd (evaluate_pr_for_merge d w) = w ∨
  (∃ comment,
     evaluate_pr_for_merge d w
     = (Ok (), Forge.logged (IssueComment (d_number d) comment) w)) ∨
  (∃ msg,
     evaluate_pr_for_merge d w = (Ok (), snd (merge_pr (d_number d) msg w))).
Proof.
  unfold evaluate_pr_for_merge. rewrite bind_unfold.
  destruct (Forge.get_pull (d_number d) w) as [[pr|e] w1] eqn:Hp;
    apply (reads_inv _ _ _ _ (reads_get_pull _)) in Hp as Hw; subst w1;
    [|left; reflexivity].
  rewrite bind_unfold.
  destruct (is_pr_approved pr w) as [[[|]|e] w1] eqn:Ha;
    apply (reads_inv _ _ _ _ (reads_is_pr_approved _)) in Ha as Hw; subst w1;
    [|left; reflexivity|left; reflexivity].
  cbn [negb]. rewrite bind_unfold.
  pose proof (check_merge_criteria_reads pr w) as Hw.
  destruct (check_merge_criteria pr w) as [[s|e] w1] eqn:Hs; simpl in Hw;
    subst w1; [|left; reflexivity].
  destruct (can_merge s).
  - rewrite bind_unfold.
    destruct (generate_merge_commit_message pr s w) as [[msg|e] w1] eqn:Hm;
      apply (reads_inv _ _ _ _ (reads_generate_merge_commit_message _ _))
        in Hm as Hw; subst w1; [|left; reflexivity].
    right; right. exists msg. rewrite bind_unfold.
    destruct (merge_pr_returns (d_number d) msg w) as (b & w' & ->).
    reflexivity.
  - right; left. exists (generate_blocking_comment s). rewrite bind_unfold.
    rewrite (comment_on_pr_run _ _ _ _ Hp). reflexivity.
Qed.

(** An evaluation that raises has done nothing. *)
Lemma evaluate_pr_for_merge_raise d w e w' :
  evaluate_pr_for_merge d w = (Raise e, w') → w' = w.
Proof.
  intros H. destruct (evaluate_pr_for_merge_effect d w)
    as [Hw|[[c Hc]|[msg Hm]]].
  - rewrite H in Hw. exact Hw.
  - rewrite H in Hc. discriminate.
  - rewrite H in Hm. discriminate.
Qed.

(** ** The cycle *)

Lemma for_each_app {A} (body : A → M unit) (xs ys : list A) w :
  for_each body (xs ++ ys) w
  = (for_each body xs ≫= λ _, for_each body ys) w.
Proof.
  revert w. induction xs as [|x xs IH]; intros w; [reflexivity|].
  simpl. rewrite !bind_unfold. destruct (body x w) as [[[]|e] w1]; [|done].
  rewrite IH. reflexivity.
Qed.

Lemma run_agent_cycle_returns agents w :
  ∃ w', run_agent_cycle agents w = (Ok (), w').
Proof.
  unfold run_agent_cycle. revert w.
  induction agents as [|agent agents IH]; intros w; simpl; [eauto|].
  rewrite bind_unfold. unfold try_except at 1.
  destruct (process agent w) as [[[]|e] w1]; apply IH.
Qed.

(** C5, as the code has it. When the evaluation of one open pull request
    raises, nothing is done for it, and nothing for the pull requests
    listed after it either: the exception ends [process], after the pull
    requests listed before have been evaluated. [run_agent_cycle] catches
    it, so the cycle itself completes. *)
Theorem fetch_failure_ends_the_merge_cycle w before d after w1 e :
  get_open_prs w = (Ok (before ++ d :: after), w) →
  for_each evaluate_pr_for_merge before w = (Ok (), w1) →
  fst (evaluate_pr_for_merge d w1) = Raise e →
  MergeAgent.process w = (Raise e, w1) ∧
  run_agent_cycle [merge_agent] w = (Ok (), w1).
Proof.
  intros Ho Hb He.
  assert (MergeAgent.process w = (Raise e, w1)) as Hproc.
  { unfold MergeAgent.process. erewrite bind_ok by exact Ho.
    rewrite for_each_app. erewrite bind_ok by exact Hb.
    simpl. rewrite bind_unfold.
    destruct (evaluate_pr_for_merge d w1) as [r w2] eqn:E. simpl in He.
    subst r. apply evaluate_pr_for_merge_raise in E. subst w2. reflexivity. }
  split; [exact Hproc|].
  unfold run_agent_cycle. simpl. rewrite bind_unfold. unfold try_except.
  simpl. rewrite Hproc. reflexivity.
Qed.

Lemma fetch_failure_ends_the_merge_cycle_witness :
  MergeAgent.process Ex.repo_unreachable_first
    = (Raise (GithubException 502), Ex.repo_unreachable_first) ∧
  run_agent_cycle [merge_agent] Ex.repo_unreachable_first
    = (Ok (), Ex.repo_unreachable_first).
Proof.
  apply (fetch_failure_ends_the_merge_cycle Ex.repo_unreachable_first
           [] (Ex.dict 1) [Ex.dict 2] Ex.repo_unreachable_first
           (GithubException 502)); reflexivity.
Defined.

(** C5 as stated fails: the pull request listed after the failing one would
    be merged if it were evaluated, and the cycle ends without any request
    for it. *)
Lemma later_pull_request_is_not_evaluated :
  let w := Ex.repo_unreachable_first in
  get_open_prs w = (Ok [Ex.dict 1; Ex.dict 2], w) ∧
  fst (evaluate_pr_for_merge (Ex.dict 1) w) = Raise (GithubException 502) ∧
  (∃ msg, requests (snd (evaluate_pr_for_merge (Ex.dict 2) w))
          = [MergeRequest 2 msg true]) ∧
  requests (snd (MergeAgent.process w)) = [] ∧
  requests (snd (run_agent_cycle [merge_agent] w)) = [].
Proof.
  split; [vm_compute; reflexivity|]. split; [vm_compute; reflexivity|].
  split; [eexists; vm_compute; reflexivity|].
  split; vm_compute; reflexivity.
Qed.

(** ** Merging twice *)

(** C6. For a pull request that is merged already, [merge_pr] returns
    [False] without raising: the forge refuses the request and the
    exception is caught. An evaluation of such a pull request changes no
    pull request and adds no accepted merge to the requests the forge has
    received. *)
Theorem merged_pull_request_is_not_merged_again d w pr :
  Forge.get_pull (d_number d) w = (Ok pr, w) →
  pr_merged pr = true →
  (∀ msg,
     merge_pr (d_number d) msg w
     = (Ok false, Forge.logged (MergeRequest (d_number d) msg false) w)) ∧
  pulls (snd (evaluate_pr_for_merge d w)) = pulls w ∧
  ∃ new,
    requests (snd (evaluate_pr_for_merge d w)) = requests w ++ new ∧
    ∀ k msg, ¬ In (MergeRequest k msg true) new.
Proof.
  intros Hp Hm.
  assert (Forge.mergeable (d_number d) w = false) as Hno.
  { destruct (get_pull_inv _ _ _ _ Hp) as (_ & Hf & _).
    unfold Forge.mergeable. rewrite Hf, Hm. reflexivity. }
  assert (∀ msg,
     merge_pr (d_number d) msg w
     = (Ok false, Forge.logged (MergeRequest (d_number d) msg false) w))
    as Hmerge.
  { intros msg. rewrite (merge_pr_run _ msg w pr Hp), Hno. reflexivity. }
  split; [exact Hmerge|].
  destruct (evaluate_pr_for_merge_effect d w) as [Hw|[[c Hc]|[msg Hmsg]]].
  - rewrite Hw. split; [reflexivity|]. exists [].
    rewrite app_nil_r. split; [reflexivity | intros k msg []].
  - rewrite Hc. split; [reflexivity|]. eexists. split; [reflexivity|].
    intros k msg [H|[]]. discriminate.
  - rewrite Hmsg, Hmerge. split; [reflexivity|]. eexists.
    split; [reflexivity|]. intros k msg' [H|[]]. discriminate.
Qed.

Lemma merged_pull_request_is_not_merged_again_witness :
  ∃ msg,
    merge_pr 1 msg (Ex.repo [Ex.pull_merged])
    = (Ok false,
       Forge.logged (MergeRequest 1 msg false) (Ex.repo [Ex.pull_merged])) ∧
    evaluate_pr_for_merge (Ex.dict 1) (Ex.repo [Ex.pull_merged])
    = (Ok (),
       Forge.logged (MergeRequest 1 msg false) (Ex.repo [Ex.pull_merged])).
Proof.
  eexists. split; [|vm_compute; reflexivity].
  apply (merged_pull_request_is_not_merged_again (Ex.dict 1)
           (Ex.repo [Ex.pull_merged]) Ex.pull_merged); reflexivity.
Defined.

(** ** The status pass *)

Lemma scan_pulls_none lower feature prs :
  (∀ pr, In pr prs → decisive lower feature pr = false) →
  scan_pulls lower feature prs = (feature, false).
Proof.
  induction prs as [|pr prs IH]; intros H; [reflexivity|].
  simpl. pose proof (H pr (or_introl eq_refl)) as Hd.
  unfold decisive in Hd.
  destruct (implements lower feature pr);
    [|apply IH; intros; apply H; by right].
  destruct (pr_merged pr); [discriminate|].
  destruct (String.eqb (pr_state pr) "open"); [discriminate|].
  apply IH. intros; apply H; by right.
Qed.

Lemma scan_pulls_first lower feature before pr after :
  (∀ p, In p before → decisive lower feature p = false) →
  decisive lower feature pr = true →
  scan_pulls lower feature (before ++ pr :: after)
  = (set_status (if pr_merged pr then "completed" else "in-progress") feature,
     true).
Proof.
  intros Hb Hd. induction before as [|p before IH]; simpl.
  - unfold decisive in Hd.
    destruct (implements lower feature pr); [|discriminate].
    destruct (pr_merged pr); [reflexivity|].
    destruct (String.eqb (pr_state pr) "open"); [reflexivity | discriminate].
  - pose proof (Hb p (or_introl eq_refl)) as Hp. unfold decisive in Hp.
    assert (∀ q, In q before → decisive lower feature q = false) as Hb'
      by (intros; apply Hb; by right).
    destruct (implements lower feature p); [|exact (IH Hb')].
    destruct (pr_merged p); [discriminate|].
    destruct (String.eqb (pr_state p) "open"); [discriminate | exact (IH Hb')].
Qed.

Lemma scan_pulls_status_pass lower feature prs :
  feature_status feature = "pending" →
  status_pass lower prs feature (fst (scan_pulls lower feature prs)).
Proof.
  intros Hpend. split; [intros Hne; contradiction|]. intros _. split.
  - intros H. rewrite (scan_pulls_none _ _ _ H). reflexivity.
  - intros before pr after -> Hb Hd.
    rewrite (scan_pulls_first _ _ _ _ _ Hb Hd). reflexivity.
Qed.

Lemma update_features_status_pass lower features updated w :
  ∃ features' updated',
    update_features lower features updated w
    = (Ok (features', updated'), w) ∧
    Forall2 (status_pass lower (pulls w)) features features'.
Proof.
  revert updated. induction features as [|feature rest IH]; intros updated.
  - exists [], updated. split; [reflexivity | constructor].
  - simpl.
    destruct (String.eqb_spec (feature_status feature) "pending") as [E|E].
    + rewrite bind_unfold. unfold Forge.get_pulls at 1. simpl.
      destruct (scan_pulls lower feature (pulls w)) as [feature' hit]
        eqn:Es.
      destruct (IH (updated || hit)%bool) as (rest' & updated' & Hr & Hf).
      rewrite bind_unfold, Hr. eexists _, _. split; [reflexivity|].
      constructor; [|exact Hf].
      pose proof (scan_pulls_status_pass lower feature (pulls w) E) as Hs.
      rewrite Es in Hs. exact Hs.
    + destruct (IH updated) as (rest' & updated' & Hr & Hf).
      rewrite bind_unfold, Hr. eexists _, _. split; [reflexivity|].
      constructor; [|exact Hf].
      split; [reflexivity | intros H; contradiction].
Qed.

(** C8, as the code has it. The status pass returns, and only reads the
    forge. It leaves every feature that is not pending as it is. For a
    pending feature it goes through all pull requests in listing order and
    stops at the first whose lower-cased title starts with "feat: <id>" and
    which is merged or open: merged makes the feature completed, open makes
    it in-progress; with no such pull request the feature stays pending.
    This holds whatever [str.lower] makes of a title. *)
Theorem status_pass_takes_first_decisive_pull_request
    (lower : string → string) features w :
  ∃ features' updated,
    review_and_update_specifications lower features w
    = (Ok (features', updated), w) ∧
    Forall2 (status_pass lower (pulls w)) features features'.
Proof. apply update_features_status_pass. Qed.

(** C8 as stated fails. With an open pull request listed before a merged
    one, the pending feature becomes in-progress, not completed; and a
    feature that is in-progress already stays so although a pull request
    for it is merged. The titles are in ASCII, which [Py.lower] lower-cases
    as [str.lower] does. *)
Lemma open_listed_first_wins :
  let w := Ex.repo_open_then_merged in
  review_and_update_specifications Py.lower [Ex.user_auth "pending"] w
    = (Ok ([Ex.user_auth "in-progress"], true), w) ∧
  claimed_status (Ex.user_auth "pending") (pulls w) = "completed" ∧
  review_and_update_specifications Py.lower [Ex.user_auth "in-progress"]
    w
    = (Ok ([Ex.user_auth "in-progress"], false), w) ∧
  claimed_status (Ex.user_auth "in-progress") (pulls w) = "completed".
Proof. repeat split. Qed.

(** ** Reviewing once *)

(** C10. When a pull request carries a review by the agent's own account,
    [review_pull_request] returns at once and leaves the repository as it
    was, whatever the three analyses would find: no review is submitted. *)
Theorem reviewed_pull_request_is_skipped
    (check_commit_messages check_code check_tests
       : PullRequest → M (list string)) d w pr reviews :
  Forge.get_pull (d_number d) w = (Ok pr, w) →
  pr_reviews pr = Ok reviews →
  (∃ review, In review reviews ∧ review_login review = login w) →
  review_pull_request check_commit_messages check_code check_tests d w
  = (Ok (), w).
Proof.
  intros Hp Hr (review & Hin & Hlogin).
  unfold review_pull_request. erewrite bind_ok by exact Hp.
  assert (has_reviewed_pr pr w = (Ok true, w)) as Hh.
  { unfold has_reviewed_pr, Forge.get_reviews, fetch. rewrite Hr.
    erewrite bind_ok by reflexivity.
    unfold Forge.get_user_login. erewrite bind_ok by reflexivity.
    unfold mret, M_ret. f_equal. f_equal.
    apply existsb_exists. exists review. split; [exact Hin|].
    apply String.eqb_eq. exact Hlogin. }
  erewrite bind_ok by exact Hh. reflexivity.
Qed.

Lemma reviewed_pull_request_is_skipped_witness :
  review_pull_request (Ex.always_finds "a") (Ex.always_finds "b")
    (Ex.always_finds "c") (Ex.dict 1) (Ex.repo [Ex.pull_reviewed])
  = (Ok (), Ex.repo [Ex.pull_reviewed]) ∧
  requests
    (snd (review_pull_request (Ex.always_finds "a") (Ex.always_finds "b")
            (Ex.always_finds "c") (Ex.dict 2) (Ex.repo [Ex.pull_ready])))
  ≠ [].
Proof.
  split; [|vm_compute; discriminate].
  apply (reviewed_pull_request_is_skipped (Ex.always_finds "a")
           (Ex.always_finds "b") (Ex.always_finds "c") (Ex.dict 1)
           (Ex.repo [Ex.pull_reviewed]) Ex.pull_reviewed [Ex.bot_commented]);
    [reflexivity | reflexivity |].
  exists Ex.bot_commented. split; [left; reflexivity | reflexivity].
Defined.

(** * Further properties of the merge agent *)

Lemma bool_eq_of_iff (a b : bool) : (a = true ↔ b = true) → a = b.
Proof. destruct a, b; intuition congruence. Qed.

Lemma latest_state_listed login reviews st :
  latest_state login reviews = Some st →
  ∃ r, In r reviews ∧ review_login r = login ∧ review_state r = st.
Proof.
  unfold latest_state.
  destruct (List.find _ (rev reviews)) as [r|] eqn:E; [|discriminate].
  intros [= <-]. apply find_some in E as [Hin Hl].
  exists r. split; [apply in_rev; exact Hin|].
  split; [apply String.eqb_eq; exact Hl | reflexivity].
Qed.

Lemma login_determines_review (reviews : list Review) (r r' : Review) :
  NoDup (List.map review_login reviews) →
  In r reviews → In r' reviews → review_login r = review_login r' → r = r'.
Proof.
  induction reviews as [|x reviews IH]; [intros _ []|].
  simpl. intros Hnd [->|Hr] [->|Hr'] E; apply NoDup_cons in Hnd as [Hx Hnd].
  - reflexivity.
  - exfalso. apply Hx. rewrite E. apply list_elem_of_In, in_map, Hr'.
  - exfalso. apply Hx. rewrite <- E. apply list_elem_of_In, in_map, Hr.
  - exact (IH Hnd Hr Hr' E).
Qed.

Lemma latest_state_of_only_review reviews r :
  NoDup (List.map review_login reviews) →
  In r reviews →
  latest_state (review_login r) reviews = Some (review_state r).
Proof.
  intros Hnd Hin. unfold latest_state.
  destruct (List.find _ (rev reviews)) as [r'|] eqn:E.
  - apply find_some in E as [Hin' Hl]. apply String.eqb_eq in Hl.
    apply in_rev in Hin'.
    rewrite (login_determines_review reviews r' r Hnd Hin' Hin Hl).
    reflexivity.
  - exfalso. apply find_none with (x := r) in E; [|apply in_rev in Hin; exact Hin].
    rewrite String.eqb_refl in E. discriminate.
Qed.

Lemma values_latest_of_distinct reviews st :
  NoDup (List.map review_login reviews) →
  st ∈ values (latest_reviews reviews) ↔
  st ∈ List.map review_state reviews.
Proof.
  intros Hnd. rewrite values_elem. setoid_rewrite latest_reviews_lookup.
  rewrite list_elem_of_In, in_map_iff. split.
  - intros [login H]. apply latest_state_listed in H as (r & Hin & _ & Hs).
    exists r. split; [exact Hs | exact Hin].
  - intros (r & Hs & Hin). exists (review_login r). rewrite <- Hs.
    apply latest_state_of_only_review; assumption.
Qed.

(** X1. The two evaluations of the approval gate agree when no reviewer is
    listed twice: [is_pr_approved] then answers what
    [check_merge_criteria] records as [review_requirements_met]. *)
Theorem gate_agrees_when_reviewers_are_distinct pr w s w' reviews :
  pr_reviews pr = Ok reviews →
  NoDup (List.map review_login reviews) →
  check_merge_criteria pr w = (Ok s, w') →
  is_pr_approved pr w = (Ok (review_requirements_met s), w).
Proof.
  intros Hr Hnd Hs.
  apply check_merge_criteria_inv in Hs
    as (_ & _ & _ & reviews' & _ & _ & _ & Hr' & _ & _ & _ & _ & Hrr & _).
  rewrite Hr in Hr'. injection Hr' as <-.
  unfold is_pr_approved, Forge.get_reviews, fetch.
  rewrite Hr. erewrite bind_ok by reflexivity.
  unfold mret, M_ret. f_equal. f_equal. rewrite Hrr. unfold Py.count.
  f_equal; [|f_equal]; apply bool_eq_of_iff.
  - rewrite !count_positive. apply values_latest_of_distinct, Hnd.
  - rewrite !mem_elem. apply values_latest_of_distinct, Hnd.
Qed.

Lemma gate_agrees_when_reviewers_are_distinct_witness :
  is_pr_approved Ex.pull_changes_requested
    (Ex.repo [Ex.pull_changes_requested])
  = (Ok false, Ex.repo [Ex.pull_changes_requested]).
Proof.
  apply (gate_agrees_when_reviewers_are_distinct Ex.pull_changes_requested
           (Ex.repo [Ex.pull_changes_requested])
           (status_of [Ex.check "test" "success"]
              [Ex.alice_approved; Ex.bob_changes] "abc123" "abc123")
           (Ex.repo [Ex.pull_changes_requested])
           [Ex.alice_approved; Ex.bob_changes]).
  - reflexivity.
  - apply (bool_decide_unpack _). vm_compute. reflexivity.
  - reflexivity.
Defined.

(** X2. A status never has [tests_passed] false with [checks_passed] true: the
    test run that failed is one of the check runs. With all check runs
    successful, the tests can only block because no run is named as a test
    ([tests_passed] is [None]). *)
Theorem failed_tests_are_failed_checks pr w s w' :
  check_merge_criteria pr w = (Ok s, w') →
  tests_passed s = Some false →
  checks_passed s = false.
Proof.
  intros Hs Ht.
  apply check_merge_criteria_inv in Hs
    as (_ & _ & checks & _ & _ & _ & _ & _ & _ & _ & Hcp & Htp & _).
  rewrite Htp in Ht. rewrite Hcp.
  destruct (List.find is_test_check checks) as [c|] eqn:E; [|discriminate].
  simpl in Ht. injection Ht as Hfailed.
  apply find_some in E as [Hin _].
  apply not_true_is_false. intros Hall.
  rewrite forallb_forall in Hall. specialize (Hall c Hin). congruence.
Qed.

Lemma failed_tests_are_failed_checks_witness :
  ∃ s, check_merge_criteria More.pull_failed_test
         (Ex.repo [More.pull_failed_test])
       = (Ok s, Ex.repo [More.pull_failed_test]) ∧
       tests_passed s = Some false ∧ checks_passed s = false.
Proof.
  eexists. split; [vm_compute; reflexivity|]. split; [reflexivity|].
  apply (failed_tests_are_failed_checks More.pull_failed_test
           (Ex.repo [More.pull_failed_test]) _
           (Ex.repo [More.pull_failed_test])); vm_compute; reflexivity.
Defined.

(** ** What one evaluation does *)

(** The three ways an evaluation can end: without any request, with the
    blocking comment for a status that cannot merge, or with one call of
    [merge_pr] for a status that can. *)
Lemma evaluate_pr_for_merge_cases d w :
  snd (evaluate_pr_for_merge d w) = w ∨
  (∃ pr s,
     Forge.get_pull (d_number d) w = (Ok pr, w) ∧
     is_pr_approved pr w = (Ok true, w) ∧
     check_merge_criteria pr w = (Ok s, w) ∧
     can_merge s = false ∧
     evaluate_pr_for_merge d w
     = (Ok (),
        Forge.logged
          (IssueComment (d_number d) (generate_blocking_comment s)) w)) ∨
  (∃ pr s msg,
     Forge.get_pull (d_number d) w = (Ok pr, w) ∧
     is_pr_approved pr w = (Ok true, w) ∧
     check_merge_criteria pr w = (Ok s, w) ∧
     can_merge s = true ∧
     generate_merge_commit_message pr s w = (Ok msg, w) ∧
     evaluate_pr_for_merge d w
     = (Ok (),
        if Forge.mergeable (d_number d) w
        then Forge.received (MergeRequest (d_number d) msg true)
               (d_number d) Forge.close_merged w
        else Forge.logged (MergeRequest (d_number d) msg false) w)).
Proof.
  destruct (Forge.get_pull (d_number d) w) as [[pr|e] w1] eqn:Hp;
    apply (reads_inv _ _ _ _ (reads_get_pull _)) in Hp as Hw; subst w1.
  2: { left. unfold evaluate_pr_for_merge. rewrite bind_unfold, Hp.
       reflexivity. }
  destruct (is_pr_approved pr w) as [[[|]|e] w1] eqn:Ha;
    apply (reads_inv _ _ _ _ (reads_is_pr_approved _)) in Ha as Hw; subst w1.
  2, 3: left; unfold evaluate_pr_for_merge;
        rewrite bind_unfold, Hp, bind_unfold, Ha; reflexivity.
  pose proof (check_merge_criteria_reads pr w) as Hw.
  destruct (check_merge_criteria pr w) as [[s|e] w1] eqn:Hs; simpl in Hw;
    subst w1.
  2: { left. unfold evaluate_pr_for_merge.
       rewrite bind_unfold, Hp, bind_unfold, Ha. cbn [negb].
       rewrite bind_unfold, Hs. reflexivity. }
  rewrite (evaluate_pr_for_merge_run d w pr s Hp Ha Hs).
  destruct (can_merge s) eqn:Hcan.
  - destruct (generate_merge_commit_message pr s w) as [[msg|e] w1] eqn:Hm;
      apply (reads_inv _ _ _ _ (reads_generate_merge_commit_message _ _))
        in Hm as Hw; subst w1.
    + right; right. exists pr, s, msg. repeat (split; [done|]).
      rewrite bind_unfold, Hm, bind_unfold, (merge_pr_run _ msg w pr Hp).
      reflexivity.
    + left. rewrite bind_unfold, Hm. reflexivity.
  - right; left. exists pr, s. repeat (split; [done|]).
    rewrite bind_unfold, (comment_on_pr_run _ _ _ _ Hp). reflexivity.
Qed.

Lemma evaluate_pr_for_merge_requests d w :
  ∃ new,
    requests (snd (evaluate_pr_for_merge d w)) = requests w ++ new ∧
    (List.length new ≤ 1)%nat.
Proof.
  destruct (evaluate_pr_for_merge_cases d w)
    as [Hw|[(pr & s & _ & _ & _ & _ & He)
           |(pr & s & msg & _ & _ & _ & _ & _ & He)]].
  - exists []. rewrite Hw, app_nil_r. split; [reflexivity | simpl; lia].
  - rewrite He. eexists. split; [reflexivity | simpl; lia].
  - rewrite He. exists [MergeRequest (d_number d) msg
                          (Forge.mergeable (d_number d) w)].
    split; [|simpl; lia].
    simpl. destruct (Forge.mergeable (d_number d) w); reflexivity.
Qed.

(** X3. One evaluation sends the forge at most one request: it never both
    merges and comments, and never does either twice. *)
Theorem evaluation_sends_at_most_one_request d w :
  ∃ new,
    requests (snd (evaluate_pr_for_merge d w)) = requests w ++ new ∧
    (List.length new ≤ 1)%nat.
Proof. apply evaluate_pr_for_merge_requests. Qed.

(** X4. A merge is only ever requested on the strength of the fetched state: a
    merge request that the evaluation adds belongs to a pull request whose
    latest-per-reviewer states pass the gate, whose listed reviews have an
    APPROVED and no CHANGES_REQUESTED, whose head commit has only
    successful check runs, one of them named as a test, and whose recorded
    base sha is the sha of the base branch. *)
Theorem merge_request_requires_all_criteria d w k msg accepted :
  In (MergeRequest k msg accepted)
     (requests (snd (evaluate_pr_for_merge d w))) →
  In (MergeRequest k msg accepted) (requests w) ∨
  ∃ pr reviews earlier head checks,
    k = d_number d ∧
    Forge.get_pull k w = (Ok pr, w) ∧
    pr_reviews pr = Ok reviews ∧
    ¬ gate_fails reviews ∧
    In "APPROVED" (List.map review_state reviews) ∧
    ¬ In "CHANGES_REQUESTED" (List.map review_state reviews) ∧
    pr_commits pr = Ok (earlier ++ [head]) ∧
    commit_check_runs head = Ok checks ∧
    (∀ c, In c checks → check_conclusion c = "success") ∧
    (∃ c, In c checks ∧ is_test_check c = true) ∧
    Forge.get_branch_sha (pr_base_ref pr) w = (Ok (pr_base_sha pr), w) ∧
    accepted = Forge.mergeable k w.
Proof.
  intros Hin.
  destruct (evaluate_pr_for_merge_cases d w)
    as [Hw|[(pr & s & _ & _ & _ & _ & He)
           |(pr & s & msg' & Hp & Ha & Hs & Hcan & _ & He)]].
  - left. rewrite Hw in Hin. exact Hin.
  - left. rewrite He in Hin. simpl in Hin.
    apply in_app_or in Hin as [Hin|[Hin|[]]]; [exact Hin | discriminate].
  - assert (requests (snd (evaluate_pr_for_merge d w))
            = requests w ++ [MergeRequest (d_number d) msg'
                               (Forge.mergeable (d_number d) w)]) as Hreq.
    { rewrite He. simpl.
      destruct (Forge.mergeable (d_number d) w); reflexivity. }
    rewrite Hreq in Hin.
    apply in_app_or in Hin as [Hin|[Hin|[]]]; [left; exact Hin|].
    injection Hin as <- <- <-. right.
    apply check_merge_criteria_inv in Hs
      as (earlier & head & checks & reviews & base & Hc & Hk & Hr & Hb & _
          & Hcp & Htp & Hrr & Hbu & Hall & _).
    exists pr, reviews, earlier, head, checks.
    rewrite Hcan in Hall. symmetry in Hall. unfold sub_checks in Hall.
    simpl in Hall.
    apply andb_true_iff in Hall as [H1 Hall].
    apply andb_true_iff in Hall as [H2 Hall].
    apply andb_true_iff in Hall as [H3 Hall].
    apply andb_true_iff in Hall as [H4 _].
    unfold id in *.
    rewrite Hcp in H1. rewrite Htp in H2. rewrite Hrr in H3.
    rewrite Hbu in H4.
    apply andb_true_iff in H3 as [H3a H3b].
    apply negb_true_iff in H3b.
    split; [reflexivity|]. split; [exact Hp|]. split; [exact Hr|].
    split.
    { intros Hg. destruct (is_pr_approved_spec pr w reviews Hr)
        as (b & Hb' & Hspec).
      rewrite Ha in Hb'. injection Hb' as <-.
      apply Hspec in Hg. discriminate. }
    split.
    { apply list_elem_of_In, count_positive. exact H3a. }
    split.
    { intros Hcr. apply list_elem_of_In, mem_elem in Hcr. congruence. }
    split; [exact Hc|]. split; [exact Hk|]. split.
    { intros c Hc'. rewrite forallb_forall in H1.
      apply String.eqb_eq, (H1 c Hc'). }
    split.
    { destruct (List.find is_test_check checks) as [c|] eqn:E;
        [|discriminate].
      apply find_some in E. exists c. exact E. }
    split; [|reflexivity].
    apply String.eqb_eq in H4. rewrite H4. exact Hb.
Qed.

Lemma merge_request_requires_all_criteria_witness :
  In (MergeRequest 1 More.message_of_pull_tests true)
     (requests (snd (evaluate_pr_for_merge (Ex.dict 1)
                       (Ex.repo [Ex.pull_tests])))) ∧
  Forge.mergeable 1 (Ex.repo [Ex.pull_tests]) = true.
Proof.
  assert (In (MergeRequest 1 More.message_of_pull_tests true)
             (requests (snd (evaluate_pr_for_merge (Ex.dict 1)
                               (Ex.repo [Ex.pull_tests]))))) as Hin
    by (vm_compute; left; reflexivity).
  split; [exact Hin|].
  destruct (merge_request_requires_all_criteria (Ex.dict 1)
              (Ex.repo [Ex.pull_tests]) 1 More.message_of_pull_tests true
              Hin)
    as [[]|(pr & reviews & earlier & head & checks & _ & _ & _ & _ & _ & _
            & _ & _ & _ & _ & _ & Hacc)].
  symmetry. exact Hacc.
Defined.

(** X5. A pull request that passes the gate and whose criteria can be
    evaluated gets exactly one action: the merge request when [can_merge]
    is set, the blocking comment otherwise. *)
Theorem approved_pull_request_gets_exactly_one_action d w pr s :
  Forge.get_pull (d_number d) w = (Ok pr, w) →
  is_pr_approved pr w = (Ok true, w) →
  check_merge_criteria pr w = (Ok s, w) →
  ∃ msg,
    generate_merge_commit_message pr s w = (Ok msg, w) ∧
    fst (evaluate_pr_for_merge d w) = Ok () ∧
    requests (snd (evaluate_pr_for_merge d w))
    = requests w
      ++ [if can_merge s
          then MergeRequest (d_number d) msg (Forge.mergeable (d_number d) w)
          else IssueComment (d_number d) (generate_blocking_comment s)].
Proof.
  intros Hp Ha Hs.
  pose proof Hs as Hinv. apply check_merge_criteria_inv in Hinv
    as (_ & _ & _ & reviews & _ & _ & _ & Hr & _).
  destruct (generate_merge_commit_message_run pr s w reviews Hr)
    as (msg & Hm & _).
  exists msg. split; [exact Hm|].
  rewrite (evaluate_pr_for_merge_run d w pr s Hp Ha Hs).
  destruct (can_merge s).
  - rewrite bind_unfold, Hm, bind_unfold, (merge_pr_run _ msg w pr Hp).
    split; [reflexivity|]. simpl.
    destruct (Forge.mergeable (d_number d) w); reflexivity.
  - rewrite bind_unfold, (comment_on_pr_run _ _ _ _ Hp).
    split; reflexivity.
Qed.

Lemma approved_pull_request_gets_exactly_one_action_witness :
  ∃ s,
    check_merge_criteria Ex.pull_unit_test (Ex.repo [Ex.pull_unit_test])
    = (Ok s, Ex.repo [Ex.pull_unit_test]) ∧
    requests (snd (evaluate_pr_for_merge (Ex.dict 1)
                     (Ex.repo [Ex.pull_unit_test])))
    = [IssueComment 1 (generate_blocking_comment s)].
Proof.
  exists (status_of [Ex.check "unit-test" "success"] [Ex.alice_approved]
            "abc123" "abc123").
  split; [reflexivity|].
  destruct (approved_pull_request_gets_exactly_one_action (Ex.dict 1)
              (Ex.repo [Ex.pull_unit_test]) Ex.pull_unit_test
              (status_of [Ex.check "unit-test" "success"] [Ex.alice_approved]
                 "abc123" "abc123") eq_refl eq_refl eq_refl)
    as (msg & _ & _ & Hreq).
  exact Hreq.
Defined.

(** ** The two texts *)

(** X6. The blocking comment names the failing criteria and no other: each of
    the four reasons is in the comment exactly when its sub-check is not
    true. *)
Theorem blocking_comment_names_the_failing_criteria pr w s w' :
  check_merge_criteria pr w = (Ok s, w') →
  let comment := generate_blocking_comment s in
  Py.contains comment "CI checks must pass" = negb (checks_passed s) ∧
  Py.contains comment "All tests must pass"
    = negb (Py.truthy (tests_passed s)) ∧
  Py.contains comment "Required reviews must be approved"
    = negb (review_requirements_met s) ∧
  Py.contains comment "Branch must be up to date with base"
    = negb (branch_up_to_date s).
Proof.
  intros Hs.
  apply check_merge_criteria_inv in Hs
    as (_ & _ & _ & _ & _ & _ & _ & _ & _ & _ & _ & _ & _ & _ & _ & Hblock).
  unfold generate_blocking_comment. rewrite Hblock.
  destruct (checks_passed s), (Py.truthy (tests_passed s)),
    (review_requirements_met s), (branch_up_to_date s);
    vm_compute; repeat split.
Qed.

Lemma blocking_comment_names_the_failing_criteria_witness :
  let s := status_of [Ex.check "unit-test" "success"] [Ex.alice_approved]
             "abc123" "abc123" in
  Py.contains (generate_blocking_comment s) "All tests must pass" = true ∧
  Py.contains (generate_blocking_comment s) "CI checks must pass" = false.
Proof.
  destruct (blocking_comment_names_the_failing_criteria Ex.pull_unit_test
              (Ex.repo [Ex.pull_unit_test])
              (status_of [Ex.check "unit-test" "success"] [Ex.alice_approved]
                 "abc123" "abc123")
              (Ex.repo [Ex.pull_unit_test]) eq_refl)
    as (H1 & H2 & _).
  split; [exact H2 | exact H1].
Defined.

Lemma join_starts_with_first (sep x : string) (rest : list string) :
  Py.startswith (Py.join sep (x :: rest)) x = true.
Proof.
  unfold Py.startswith, Py.join. destruct rest as [|y rest].
  - apply prefix_refl.
  - change (String.concat sep (x :: y :: rest))
      with (x +:+ sep +:+ String.concat sep (y :: rest)).
    apply prefix_refl_app.
Qed.

(** X7. The merge commit message opens with the number and the head branch of
    the pull request, has one line per listed review with the reviewer and
    the state, and has the body of the pull request, or the words "No
    description provided." when the body is missing or empty. *)
Theorem commit_message_tells_the_pull_request_and_its_reviews
    pr s w reviews :
  pr_reviews pr = Ok reviews →
  ∃ msg,
    generate_merge_commit_message pr s w = (Ok msg, w) ∧
    Py.startswith msg
      ("Merge pull request #" +:+ pretty (pr_number pr) +:+ " from "
         +:+ pr_head_ref pr) = true ∧
    (∀ review, In review reviews →
       Py.contains msg
         ("- " +:+ review_login review +:+ ": " +:+ review_state review)
       = true) ∧
    (∀ body, pr_body pr = Some body → body ≠ EmptyString →
       Py.contains msg body = true) ∧
    (pr_body pr = None ∨ pr_body pr = Some EmptyString →
       Py.contains msg "No description provided." = true).
Proof.
  intros Hr. unfold generate_merge_commit_message, Forge.get_reviews, fetch.
  rewrite Hr. erewrite bind_ok by reflexivity.
  eexists. split; [reflexivity|]. split; [apply join_starts_with_first|].
  split; [|split].
  - intros review Hin. apply contains_join, in_or_app. right.
    apply (in_map review_line), Hin.
  - intros body Hb Hne. apply contains_join, in_or_app. left.
    rewrite Hb. destruct body; [contradiction | simpl; tauto].
  - intros [Hb|Hb]; apply contains_join, in_or_app; left; rewrite Hb;
      simpl; tauto.
Qed.

Lemma commit_message_tells_the_pull_request_and_its_reviews_witness :
  ∃ msg,
    generate_merge_commit_message Ex.pull_tests
      (status_of [Ex.check "Tests / unit" "success"] [Ex.alice_approved]
         "abc123" "abc123") (Ex.repo [Ex.pull_tests])
    = (Ok msg, Ex.repo [Ex.pull_tests]) ∧
    Py.contains msg "- alice: APPROVED" = true ∧
    Py.contains msg "Implements user authentication" = true.
Proof.
  destruct (commit_message_tells_the_pull_request_and_its_reviews
              Ex.pull_tests
              (status_of [Ex.check "Tests / unit" "success"]
                 [Ex.alice_approved] "abc123" "abc123")
              (Ex.repo [Ex.pull_tests]) [Ex.alice_approved] eq_refl)
    as (msg & Hm & _ & Hrev & Hbody & _).
  exists msg. split; [exact Hm|]. split.
  - apply (Hrev Ex.alice_approved). left. reflexivity.
  - apply (Hbody "Implements user authentication"); [reflexivity|].
    discriminate.
Defined.

(** * Further properties of [BaseAgent] *)

Lemma get_pull_missing n w :
  (∀ p, In p (pulls w) → pr_number p ≠ n) →
  Forge.get_pull n w = (Raise (GithubException 404), w).
Proof.
  intros H. unfold Forge.get_pull.
  destruct (List.find (Forge.has_number n) (pulls w)) as [p|] eqn:E;
    [|reflexivity].
  apply find_some in E as [Hin Hn]. unfold Forge.has_number in Hn.
  exfalso. apply (H p Hin). lia.
Qed.

(** X8. For a number that no pull request has, [merge_pr] and [comment_on_pr]
    return [False] and the forge receives nothing: the 404 of [get_pull] is
    caught. *)
Theorem missing_pull_request_is_reported_as_failure n text w :
  (∀ p, In p (pulls w) → pr_number p ≠ n) →
  merge_pr n text w = (Ok false, w) ∧
  comment_on_pr n text w = (Ok false, w).
Proof.
  intros H. apply get_pull_missing in H.
  unfold merge_pr, comment_on_pr, try_except.
  rewrite !bind_unfold, H. split; reflexivity.
Qed.

Lemma missing_pull_request_is_reported_as_failure_witness :
  merge_pr 9 "merge" (Ex.repo [Ex.pull_tests])
    = (Ok false, Ex.repo [Ex.pull_tests]) ∧
  comment_on_pr 9 "hello" (Ex.repo [Ex.pull_tests])
    = (Ok false, Ex.repo [Ex.pull_tests]).
Proof.
  assert (∀ p, In p (pulls (Ex.repo [Ex.pull_tests])) → pr_number p ≠ 9)
    as Hnone by (intros p [<-|[]]; vm_compute; discriminate).
  split.
  - apply (missing_pull_request_is_reported_as_failure 9 "merge"
             (Ex.repo [Ex.pull_tests]) Hnone).
  - apply (missing_pull_request_is_reported_as_failure 9 "hello"
             (Ex.repo [Ex.pull_tests]) Hnone).
Defined.

Lemma close_merged_number p : pr_number (Forge.close_merged p) = pr_number p.
Proof. reflexivity. Qed.

(** Looking a number up after every pull request of that number has been
    changed by [f], which keeps numbers. *)
Lemma find_after_change n (f : PullRequest → PullRequest) ps :
  (∀ p, pr_number (f p) = pr_number p) →
  List.find (Forge.has_number n)
    (List.map (λ q, if Forge.has_number n q then f q else q) ps)
  = f <$> List.find (Forge.has_number n) ps.
Proof.
  intros Hf. induction ps as [|p ps IH]; [reflexivity|]. simpl.
  destruct (Forge.has_number n p) eqn:E.
  - unfold Forge.has_number in *. rewrite Hf, E. reflexivity.
  - rewrite E. exact IH.
Qed.

Lemma find_other_after_change n k (f : PullRequest → PullRequest) ps :
  (∀ p, pr_number (f p) = pr_number p) →
  k ≠ n →
  List.find (Forge.has_number k)
    (List.map (λ q, if Forge.has_number n q then f q else q) ps)
  = List.find (Forge.has_number k) ps.
Proof.
  intros Hf Hne. induction ps as [|p ps IH]; [reflexivity|]. simpl.
  destruct (Forge.has_number n p) eqn:E.
  - unfold Forge.has_number in *. rewrite Hf.
    assert ((pr_number p =? k) = false) as -> by lia. exact IH.
  - destruct (Forge.has_number k p); [reflexivity | exact IH].
Qed.

Lemma merge_pr_cases n msg w :
  (merge_pr n msg w = (Ok false, w) ∧ Forge.get_pull n w
     = (Raise (GithubException 404), w)) ∨
  (∃ pr, Forge.get_pull n w = (Ok pr, w) ∧
     merge_pr n msg w
     = (Ok (Forge.mergeable n w),
        if Forge.mergeable n w
        then Forge.received (MergeRequest n msg true) n Forge.close_merged w
        else Forge.logged (MergeRequest n msg false) w)).
Proof.
  destruct (Forge.get_pull n w) as [[pr|e] w1] eqn:Hp.
  - apply (reads_inv _ _ _ _ (reads_get_pull _)) in Hp as Hw. subst w1.
    right. exists pr. split; [reflexivity|]. apply (merge_pr_run _ _ _ pr Hp).
  - left. unfold Forge.get_pull in Hp.
    destruct (List.find _ (pulls w)) eqn:E; [discriminate|].
    injection Hp as <- <-. split; [|reflexivity].
    unfold merge_pr, try_except. rewrite bind_unfold.
    unfold Forge.get_pull. rewrite E. reflexivity.
Qed.

Lemma mergeable_after_merge n msg w :
  Forge.mergeable n
    (Forge.received (MergeRequest n msg true) n Forge.close_merged w) = false.
Proof.
  unfold Forge.mergeable, Forge.received. simpl.
  rewrite (find_after_change n Forge.close_merged (pulls w)
             close_merged_number).
  destruct (List.find (Forge.has_number n) (pulls w)); reflexivity.
Qed.

(** X9. [merge_pr] does not succeed twice: whatever a first call for a number
    returned, a second call for that number returns [False], and it
    changes no pull request. *)
Theorem merge_pr_does_not_succeed_twice n msg1 msg2 w :
  let w1 := snd (merge_pr n msg1 w) in
  fst (merge_pr n msg2 w1) = Ok false ∧
  pulls (snd (merge_pr n msg2 w1)) = pulls w1.
Proof.
  simpl.
  destruct (merge_pr_cases n msg1 w) as [[-> Hp]|(pr & Hp & ->)]; simpl.
  - destruct (merge_pr_cases n msg2 w) as [[-> _]|(pr & Hp' & _)];
      [split; reflexivity | congruence].
  - destruct (Forge.mergeable n w) eqn:Hm.
    + set (w1 := Forge.received _ _ _ w).
      pose proof (mergeable_after_merge n msg1 w) as Hno. fold w1 in Hno.
      destruct (merge_pr_cases n msg2 w1) as [[-> _]|(pr' & _ & ->)];
        [split; reflexivity|].
      rewrite Hno. split; reflexivity.
    + set (w1 := Forge.logged _ w).
      assert (Forge.mergeable n w1 = false) as Hno by exact Hm.
      destruct (merge_pr_cases n msg2 w1) as [[-> _]|(pr' & _ & ->)];
        [split; reflexivity|].
      rewrite Hno. split; reflexivity.
Qed.

(** X10. When [merge_pr] returns [True], the pull request is merged and closed
    afterwards, the forge has received that one merge request, and the
    pull request is no longer among those [get_open_prs] lists, while
    every other number is listed as before. *)
Theorem merged_pull_request_leaves_the_open_list n msg w w1 :
  merge_pr n msg w = (Ok true, w1) →
  (∃ pr, Forge.get_pull n w1 = (Ok pr, w1) ∧
         pr_merged pr = true ∧ pr_state pr = "closed") ∧
  requests w1 = requests w ++ [MergeRequest n msg true] ∧
  ∃ before after,
    get_open_prs w = (Ok before, w) ∧
    get_open_prs w1 = (Ok after, w1) ∧
    after = List.filter (λ d, negb (d_number d =? n)) before.
Proof.
  intros H.
  destruct (merge_pr_cases n msg w) as [[H' _]|(pr & Hp & H')];
    rewrite H in H'; [discriminate|].
  injection H' as Hm Hw. rewrite <- Hm in Hw. subst w1.
  destruct (get_pull_inv _ _ _ _ Hp) as (_ & Hf & _).
  split; [|split; [reflexivity|]].
  - exists (Forge.close_merged pr). unfold Forge.get_pull, Forge.received.
    simpl.
    rewrite (find_after_change n Forge.close_merged (pulls w)
               close_merged_number), Hf.
    repeat split.
  - eexists _, _. split; [reflexivity|]. split; [reflexivity|].
    unfold Forge.received. simpl. clear H Hp Hm Hf.
    induction (pulls w) as [|p ps IH]; [reflexivity|]. simpl.
    destruct (Forge.has_number n p) eqn:E; unfold Forge.has_number in E;
      simpl.
    + destruct (String.eqb (pr_state p) "open"); simpl;
        [rewrite E; simpl|]; exact IH.
    + destruct (String.eqb (pr_state p) "open"); simpl;
        [rewrite E; simpl; f_equal|]; exact IH.
Qed.

Lemma merged_pull_request_leaves_the_open_list_witness :
  ∃ w1,
    merge_pr 2 "merge" Ex.repo_unreachable_first = (Ok true, w1) ∧
    get_open_prs w1 = (Ok [Ex.dict 1], w1).
Proof.
  eexists. split; [vm_compute; reflexivity|].
  match goal with |- get_open_prs ?w = _ => set (w1 := w) end.
  destruct (merged_pull_request_leaves_the_open_list 2 "merge"
              Ex.repo_unreachable_first w1)
    as (_ & _ & before & after & Hb & Ha & Hf).
  - vm_compute. reflexivity.
  - rewrite Ha. injection Hb as <-. rewrite Hf. vm_compute. reflexivity.
Defined.

(** X11. What [get_open_prs] lists are the open pull requests, in the order of
    the forge, and each one listed can be fetched by its number. *)
Theorem open_pull_requests_can_be_fetched w :
  ∃ listed,
    get_open_prs w = (Ok listed, w) ∧
    List.map d_number listed
      = List.map pr_number
          (List.filter (λ p, String.eqb (pr_state p) "open") (pulls w)) ∧
    ∀ d, In d listed →
      ∃ pr, Forge.get_pull (d_number d) w = (Ok pr, w) ∧
            pr_number pr = d_number d.
Proof.
  eexists. split; [reflexivity|]. simpl. split.
  - rewrite List.map_map. reflexivity.
  - intros d Hin. apply in_map_iff in Hin as (p & <- & Hin).
    apply filter_In in Hin as [Hin _].
    unfold Forge.get_pull.
    destruct (List.find (Forge.has_number (d_number (pr_dict p))) (pulls w))
      as [pr|] eqn:E.
    + exists pr. split; [reflexivity|].
      apply find_some in E as [_ E]. unfold Forge.has_number in E. lia.
    + exfalso. apply find_none with (x := p) in E; [|exact Hin].
      unfold Forge.has_number in E. simpl in E. lia.
Qed.

(** * Further properties of the review agent *)

Lemma extend_if_app (review_comments issues : list string) :
  extend_if review_comments issues = review_comments ++ issues.
Proof.
  destruct issues; simpl; [rewrite app_nil_r|]; reflexivity.
Qed.

Lemma has_reviewed_pr_run pr w reviews :
  pr_reviews pr = Ok reviews →
  has_reviewed_pr pr w
  = (Ok (existsb (λ review, String.eqb (review_login review) (login w))
                 reviews), w).
Proof.
  intros Hr. unfold has_reviewed_pr, Forge.get_reviews, fetch. rewrite Hr.
  reflexivity.
Qed.

Lemma not_reviewed_by reviews (bot : string) :
  (∀ r, In r reviews → review_login r ≠ bot) →
  existsb (λ review, String.eqb (review_login review) bot) reviews = false.
Proof.
  intros H. apply not_true_is_false. intros E.
  apply existsb_exists in E as (r & Hin & E). apply String.eqb_eq in E.
  exact (H r Hin E).
Qed.

(** The review that [review_pull_request] submits for the findings of the
    three analyses. *)
Lemma review_pull_request_run
    (check_commit_messages check_code check_tests
       : PullRequest → M (list string))
    d w pr reviews commit_issues code_issues test_issues :
  Forge.get_pull (d_number d) w = (Ok pr, w) →
  pr_reviews pr = Ok reviews →
  (∀ r, In r reviews → review_login r ≠ login w) →
  check_commit_messages pr w = (Ok commit_issues, w) →
  check_code pr w = (Ok code_issues, w) →
  check_tests pr w = (Ok test_issues, w) →
  review_pull_request check_commit_messages check_code check_tests d w
  = match commit_issues ++ code_issues ++ test_issues with
    | [] =>
        Forge.create_review pr "Code looks good! All checks passed."
          "APPROVE" w
    | c :: cs =>
        Forge.create_review pr
          ("## Code Review Feedback" +:+ newline +:+ newline
             +:+ Py.join newline (c :: cs))
          (if existsb is_blocking_issue (c :: cs)
           then "REQUEST_CHANGES" else "COMMENT") w
    end.
Proof.
  intros Hp Hr Hnot H1 H2 H3. unfold review_pull_request.
  erewrite bind_ok by exact Hp.
  erewrite bind_ok
    by (rewrite (has_reviewed_pr_run pr w reviews Hr),
          (not_reviewed_by reviews (login w) Hnot); reflexivity).
  cbv iota.
  erewrite bind_ok by exact H1. erewrite bind_ok by exact H2.
  erewrite bind_ok by exact H3.
  rewrite !extend_if_app, app_nil_l, <- !app_assoc.
  destruct (commit_issues ++ code_issues ++ test_issues); reflexivity.
Qed.

(** The review submitted for the findings, and its event when a finding
    blocks. *)
Lemma review_verdict_follows_the_findings_aux
    (check_commit_messages check_code check_tests
       : PullRequest → M (list string))
    d w pr reviews commit_issues code_issues test_issues :
  Forge.get_pull (d_number d) w = (Ok pr, w) →
  pr_reviews pr = Ok reviews →
  (∀ r, In r reviews → review_login r ≠ login w) →
  check_commit_messages pr w = (Ok commit_issues, w) →
  check_code pr w = (Ok code_issues, w) →
  check_tests pr w = (Ok test_issues, w) →
  let findings := commit_issues ++ code_issues ++ test_issues in
  ∃ body event,
    review_pull_request check_commit_messages check_code check_tests d w
    = (Ok (),
       Forge.received (ReviewSubmission (d_number d) body event) (d_number d)
         (Forge.add_review
            {| review_login := login w;
               review_state := Forge.state_of_event event |}) w) ∧
    (existsb is_blocking_issue findings = true →
       event = "REQUEST_CHANGES").
Proof.
  intros Hp Hr Hnot H1 H2 H3 findings.
  rewrite (review_pull_request_run _ _ _ d w pr reviews _ _ _
             Hp Hr Hnot H1 H2 H3).
  destruct (get_pull_inv _ _ _ _ Hp) as (_ & _ & Hn).
  fold findings. destruct findings as [|c cs]; unfold Forge.create_review;
    rewrite Hn; eexists _, _; (split; [reflexivity|]).
  - discriminate.
  - intros ->. reflexivity.
Qed.

(** X12. The verdict of a review. When the bot has not reviewed the pull
    request yet and the three analyses return their findings, exactly one
    review is submitted, in the bot's name: it requests changes when some
    finding starts with the blocking glyph, it is a mere comment when there
    are findings and none blocks, and it approves when there is no
    finding. Every finding is in the body of the review. *)
Theorem review_verdict_follows_the_findings
    (check_commit_messages check_code check_tests
       : PullRequest → M (list string))
    d w pr reviews commit_issues code_issues test_issues :
  Forge.get_pull (d_number d) w = (Ok pr, w) →
  pr_reviews pr = Ok reviews →
  (∀ r, In r reviews → review_login r ≠ login w) →
  check_commit_messages pr w = (Ok commit_issues, w) →
  check_code pr w = (Ok code_issues, w) →
  check_tests pr w = (Ok test_issues, w) →
  let findings := commit_issues ++ code_issues ++ test_issues in
  ∃ body event,
    review_pull_request check_commit_messages check_code check_tests d w
    = (Ok (),
       Forge.received (ReviewSubmission (d_number d) body event) (d_number d)
         (Forge.add_review
            {| review_login := login w;
               review_state := Forge.state_of_event event |}) w) ∧
    (existsb is_blocking_issue findings = true →
       event = "REQUEST_CHANGES") ∧
    (findings ≠ [] → existsb is_blocking_issue findings = false →
       event = "COMMENT") ∧
    (findings = [] → event = "APPROVE") ∧
    (∀ finding, In finding findings → Py.contains body finding = true).
Proof.
  intros Hp Hr Hnot H1 H2 H3 findings.
  rewrite (review_pull_request_run _ _ _ d w pr reviews _ _ _
             Hp Hr Hnot H1 H2 H3).
  destruct (get_pull_inv _ _ _ _ Hp) as (_ & _ & Hn).
  fold findings. destruct findings as [|c cs]; unfold Forge.create_review;
    rewrite Hn; eexists _, _; (split; [reflexivity|]).
  - repeat split; try discriminate; try congruence. intros f [].
  - split; [intros ->; reflexivity|]. split; [intros _ ->; reflexivity|].
    split; [discriminate|].
    intros finding Hin. apply contains_app_r, contains_app_r, contains_app_r.
    apply contains_join, Hin.
Qed.

Lemma review_verdict_follows_the_findings_witness :
  ∃ body,
    requests
      (snd (review_pull_request (Ex.always_finds More.advisory_finding)
              (Ex.always_finds More.blocking_finding) More.finds_nothing
              (Ex.dict 2) (Ex.repo [Ex.pull_ready])))
    = [ReviewSubmission 2 body "REQUEST_CHANGES"].
Proof.
  destruct (review_verdict_follows_the_findings
              (Ex.always_finds More.advisory_finding)
              (Ex.always_finds More.blocking_finding) More.finds_nothing
              (Ex.dict 2) (Ex.repo [Ex.pull_ready]) Ex.pull_ready
              [Ex.alice_approved] [More.advisory_finding]
              [More.blocking_finding] [])
    as (body & event & Hrun & Hblock & _); try reflexivity.
  - intros r [<-|[]]. vm_compute. discriminate.
  - exists body. rewrite Hrun. simpl. rewrite (Hblock eq_refl). reflexivity.
Defined.

Lemma add_review_number r p : pr_number (Forge.add_review r p) = pr_number p.
Proof. reflexivity. Qed.

(** After a review has been submitted, the pull request carries it. *)
Lemma get_pull_after_review n body event w pr :
  Forge.get_pull n w = (Ok pr, w) →
  let r := {| review_login := login w;
              review_state := Forge.state_of_event event |} in
  let w1 := Forge.received (ReviewSubmission n body event) n
              (Forge.add_review r) w in
  Forge.get_pull n w1 = (Ok (Forge.add_review r pr), w1).
Proof.
  intros Hp r w1. destruct (get_pull_inv _ _ _ _ Hp) as (_ & Hf & _).
  unfold Forge.get_pull, w1, Forge.received. simpl.
  rewrite (find_after_change n (Forge.add_review r) (pulls w)
             (add_review_number r)), Hf.
  reflexivity.
Qed.

(** X13. The review agent reviews a pull request once. When the analyses only
    read the forge and a call of [review_pull_request] has returned, a
    second call for the same pull request returns without doing anything:
    the review is not repeated, and not refreshed. *)
Theorem review_is_not_repeated
    (check_commit_messages check_code check_tests
       : PullRequest → M (list string)) d w w1 :
  (∀ pr, reads (check_commit_messages pr)) →
  (∀ pr, reads (check_code pr)) →
  (∀ pr, reads (check_tests pr)) →
  review_pull_request check_commit_messages check_code check_tests d w
    = (Ok (), w1) →
  review_pull_request check_commit_messages check_code check_tests d w1
    = (Ok (), w1).
Proof.
  intros R1 R2 R3 H. pose proof H as H0. unfold review_pull_request in H.
  apply bind_inv_ok in H as (pr & w' & Hp & H).
  apply (reads_inv _ _ _ _ (reads_get_pull _)) in Hp as Hw. subst w'.
  apply bind_inv_ok in H as (reviewed & w' & Hh & H).
  unfold has_reviewed_pr, Forge.get_reviews, fetch in Hh.
  destruct (pr_reviews pr) as [reviews|e] eqn:Hr; [|discriminate].
  injection Hh as <- <-.
  destruct (existsb _ reviews) eqn:Hex.
  - injection H as <-. exact H0.
  - apply bind_inv_ok in H as (i1 & w' & H1 & H).
    apply (reads_inv _ _ _ _ (R1 pr)) in H1 as Hw. subst w'.
    apply bind_inv_ok in H as (i2 & w' & H2 & H).
    apply (reads_inv _ _ _ _ (R2 pr)) in H2 as Hw. subst w'.
    apply bind_inv_ok in H as (i3 & w' & H3 & H).
    apply (reads_inv _ _ _ _ (R3 pr)) in H3 as Hw. subst w'.
    destruct (get_pull_inv _ _ _ _ Hp) as (_ & _ & Hn).
    assert (∃ body event,
              w1 = Forge.received (ReviewSubmission (d_number d) body event)
                     (d_number d)
                     (Forge.add_review
                        {| review_login := login w;
                           review_state := Forge.state_of_event event |}) w)
      as (body & event & ->).
    { destruct (extend_if _ i3); unfold Forge.create_review in H;
        rewrite Hn in H; injection H as <-; eauto. }
    unfold review_pull_request.
    erewrite bind_ok by apply (get_pull_after_review _ body event w pr Hp).
    match goal with |- context [has_reviewed_pr ?p] => set (pr1 := p) end.
    match goal with |- _ ?w = _ => set (w1 := w) end.
    assert (has_reviewed_pr pr1 w1 = (Ok true, w1)) as Hh.
    { rewrite (has_reviewed_pr_run pr1 w1
                 (reviews ++ [{| review_login := login w;
                                 review_state := Forge.state_of_event event |}])).
      - rewrite existsb_app. simpl. rewrite String.eqb_refl, orb_true_r.
        reflexivity.
      - unfold pr1. simpl. rewrite Hr. reflexivity. }
    erewrite bind_ok by exact Hh. reflexivity.
Qed.

Lemma review_is_not_repeated_witness :
  let review :=
    review_pull_request (Ex.always_finds More.advisory_finding)
      More.finds_nothing More.finds_nothing (Ex.dict 2) in
  ∃ w1, review (Ex.repo [Ex.pull_ready]) = (Ok (), w1) ∧
        w1 ≠ Ex.repo [Ex.pull_ready] ∧
        review w1 = (Ok (), w1).
Proof.
  eexists. split; [vm_compute; reflexivity|]. split; [discriminate|].
  apply (review_is_not_repeated (Ex.always_finds More.advisory_finding)
           More.finds_nothing More.finds_nothing (Ex.dict 2)
           (Ex.repo [Ex.pull_ready]));
    [intros pr w; reflexivity .. | vm_compute; reflexivity].
Defined.

(** X14. The review agent runs before the merge agent. When its review of a
    pull request requests changes, the evaluation of that pull request by
    the merge agent right after does nothing: the bot's own request for
    changes closes the approval gate, whatever the other reviews say. *)
Theorem requested_changes_hold_back_the_merge
    (check_commit_messages check_code check_tests
       : PullRequest → M (list string))
    d w pr reviews commit_issues code_issues test_issues :
  Forge.get_pull (d_number d) w = (Ok pr, w) →
  pr_reviews pr = Ok reviews →
  (∀ r, In r reviews → review_login r ≠ login w) →
  check_commit_messages pr w = (Ok commit_issues, w) →
  check_code pr w = (Ok code_issues, w) →
  check_tests pr w = (Ok test_issues, w) →
  existsb is_blocking_issue (commit_issues ++ code_issues ++ test_issues)
    = true →
  let w1 :=
    snd (review_pull_request check_commit_messages check_code check_tests
           d w) in
  evaluate_pr_for_merge d w1 = (Ok (), w1).
Proof.
  intros Hp Hr Hnot H1 H2 H3 Hblock.
  destruct (review_verdict_follows_the_findings_aux
              check_commit_messages check_code check_tests d w pr reviews
              commit_issues code_issues test_issues Hp Hr Hnot H1 H2 H3)
    as (body & event & Hrun & Hev).
  rewrite Hrun. simpl. rewrite (Hev Hblock).
  unfold evaluate_pr_for_merge.
  erewrite bind_ok
    by apply (get_pull_after_review _ body "REQUEST_CHANGES" w pr Hp).
  match goal with |- context [is_pr_approved ?p] => set (pr1 := p) end.
  match goal with |- context [is_pr_approved pr1 ≫= ?k] => set (rest := k) end.
  match goal with |- _ ?w = _ => set (w1 := w) end.
  destruct (is_pr_approved_spec pr1 w1
              (reviews ++ [{| review_login := login w;
                              review_state := "CHANGES_REQUESTED" |}]))
    as (b & Hb & Hspec).
  { unfold pr1. simpl. rewrite Hr. reflexivity. }
  assert (b = false) as ->.
  { apply Hspec. right. exists (login w). unfold latest_state.
    rewrite rev_unit. simpl. rewrite String.eqb_refl. reflexivity. }
  erewrite bind_ok by exact Hb. reflexivity.
Qed.

Lemma requested_changes_hold_back_the_merge_witness :
  let w1 :=
    snd (review_pull_request (Ex.always_finds More.blocking_finding)
           More.finds_nothing More.finds_nothing (Ex.dict 2)
           (Ex.repo [Ex.pull_ready])) in
  evaluate_pr_for_merge (Ex.dict 2) w1 = (Ok (), w1) ∧
  requests (snd (evaluate_pr_for_merge (Ex.dict 2) (Ex.repo [Ex.pull_ready])))
    ≠ [].
Proof.
  split; [|vm_compute; discriminate].
  apply (requested_changes_hold_back_the_merge
           (Ex.always_finds More.blocking_finding) More.finds_nothing
           More.finds_nothing (Ex.dict 2) (Ex.repo [Ex.pull_ready])
           Ex.pull_ready [Ex.alice_approved] [More.blocking_finding] [] []);
    try reflexivity.
  intros r [<-|[]]. vm_compute. discriminate.
Defined.

(** * Further properties of the orchestrator *)

(** X15. A cycle runs every agent, in order, and returns: an agent that raises
    keeps what it had done before raising, and the agents after it run all
    the same. *)
Theorem cycle_runs_every_agent agents w :
  run_agent_cycle agents w
  = (Ok (), fold_left (λ w' agent, snd (process agent w')) agents w).
Proof.
  unfold run_agent_cycle. revert w.
  induction agents as [|agent agents IH]; intros w; [reflexivity|].
  simpl. rewrite bind_unfold. unfold try_except at 1.
  destruct (process agent w) as [[[]|e] w1]; simpl; apply IH.
Qed.

(** * Further properties of the status pass *)

Lemma scan_pulls_outcome lower feature prs :
  scan_pulls lower feature prs = (feature, false) ∨
  scan_pulls lower feature prs = (set_status "completed" feature, true) ∨
  scan_pulls lower feature prs = (set_status "in-progress" feature, true).
Proof.
  induction prs as [|pr prs IH]; simpl; [auto|].
  destruct (implements lower feature pr); [|exact IH].
  destruct (pr_merged pr); [auto|].
  destruct (String.eqb (pr_state pr) "open"); auto.
Qed.

Lemma set_status_changes status feature :
  feature_status feature ≠ status → set_status status feature ≠ feature.
Proof. intros Hne E. apply Hne. rewrite <- E at 1. reflexivity. Qed.

Lemma update_features_flag lower features updated w features' updated'
    w' :
  update_features lower features updated w
    = (Ok (features', updated'), w') →
  w' = w ∧
  Forall2 only_status_moved features features' ∧
  (updated' = true ↔ updated = true ∨ features' ≠ features).
Proof.
  revert updated features' updated' w'.
  induction features as [|feature rest IH]; intros updated fs' u' w' H.
  - injection H as <- <- <-. split; [reflexivity|]. split; [constructor|].
    intuition congruence.
  - simpl in H.
    destruct (String.eqb_spec (feature_status feature) "pending") as [E|E].
    + rewrite bind_unfold in H. unfold Forge.get_pulls at 1 in H.
      simpl in H.
      destruct (scan_pulls lower feature (pulls w)) as [f' hit] eqn:Es.
      apply bind_inv_ok in H as ([rest' u1] & w1 & Hr & H).
      injection H as <- <- <-. simpl.
      destruct (IH _ _ _ _ Hr) as (-> & Hf & Hu).
      split; [reflexivity|].
      destruct (scan_pulls_outcome lower feature (pulls w)) as [Ho|[Ho|Ho]];
        rewrite Es in Ho; injection Ho as -> ->.
      * split; [constructor; [left; reflexivity | exact Hf]|].
        rewrite Hu, orb_false_r. split; [intros [H|H]; [auto|]|].
        -- right. congruence.
        -- intros [H|H]; [auto|]. right. congruence.
      * split; [constructor; [right; auto | exact Hf]|].
        rewrite Hu, orb_true_r. split; [intros _|auto]. right.
        intros [= Hs _]. revert Hs. apply set_status_changes.
        rewrite E. discriminate.
      * split; [constructor; [right; auto | exact Hf]|].
        rewrite Hu, orb_true_r. split; [intros _|auto]. right.
        intros [= Hs _]. revert Hs. apply set_status_changes.
        rewrite E. discriminate.
    + apply bind_inv_ok in H as ([rest' u1] & w1 & Hr & H).
      injection H as <- <- <-. simpl.
      destruct (IH _ _ _ _ Hr) as (-> & Hf & Hu).
      split; [reflexivity|].
      split; [constructor; [left; reflexivity | exact Hf]|].
      rewrite Hu. split; (intros [H|H]; [auto|]); right; congruence.
Qed.

(** X16. The status pass changes nothing but the status of pending features,
    which it moves to completed or in-progress, and its [updated] flag,
    which decides whether the document is published, is set exactly when
    some feature has changed. *)
Theorem status_pass_reports_what_it_changed
    (lower : string → string) features w features' updated w' :
  review_and_update_specifications lower features w
    = (Ok (features', updated), w') →
  w' = w ∧
  Forall2 only_status_moved features features' ∧
  (updated = true ↔ features' ≠ features).
Proof.
  unfold review_and_update_specifications. intros H.
  destruct (update_features_flag _ _ _ _ _ _ _ H) as (Hw & Hf & Hu).
  split; [exact Hw|]. split; [exact Hf|].
  rewrite Hu. intuition discriminate.
Qed.

Lemma status_pass_reports_what_it_changed_witness :
  review_and_update_specifications Py.lower
    [Ex.user_auth "pending"; Ex.user_auth "completed"]
    Ex.repo_open_then_merged
  = (Ok ([Ex.user_auth "in-progress"; Ex.user_auth "completed"], true),
     Ex.repo_open_then_merged) ∧
  [Ex.user_auth "in-progress"; Ex.user_auth "completed"]
    ≠ [Ex.user_auth "pending"; Ex.user_auth "completed"].
Proof.
  split; [reflexivity|].
  apply (status_pass_reports_what_it_changed Py.lower
           [Ex.user_auth "pending"; Ex.user_auth "completed"]
           Ex.repo_open_then_merged
           [Ex.user_auth "in-progress"; Ex.user_auth "completed"] true
           Ex.repo_open_then_merged); reflexivity.
Defined.

Lemma update_features_again lower features updated w features' updated' :
  update_features lower features updated w
    = (Ok (features', updated'), w) →
  ∀ again,
    update_features lower features' again w = (Ok (features', again), w).
Proof.
  revert updated features' updated'.
  induction features as [|feature rest IH]; intros updated fs' u' H again.
  - injection H as <- <-. reflexivity.
  - simpl in H.
    destruct (String.eqb_spec (feature_status feature) "pending") as [E|E].
    + rewrite bind_unfold in H. unfold Forge.get_pulls at 1 in H.
      simpl in H.
      destruct (scan_pulls lower feature (pulls w)) as [f' hit] eqn:Es.
      apply bind_inv_ok in H as ([rest' u1] & w1 & Hr & H).
      injection H as <- <- ->.
      simpl fst.
      destruct (scan_pulls_outcome lower feature (pulls w)) as [Ho|[Ho|Ho]];
        rewrite Es in Ho; injection Ho as -> ->; simpl.
      * rewrite E. simpl. rewrite bind_unfold. unfold Forge.get_pulls at 1.
        simpl. rewrite Es, orb_false_r.
        rewrite bind_unfold, (IH _ _ _ Hr again). reflexivity.
      * rewrite bind_unfold, (IH _ _ _ Hr again). reflexivity.
      * rewrite bind_unfold, (IH _ _ _ Hr again). reflexivity.
    + apply bind_inv_ok in H as ([rest' u1] & w1 & Hr & H).
      injection H as <- <- ->.
      simpl.
      destruct (String.eqb_spec (feature_status feature) "pending");
        [contradiction|].
      rewrite bind_unfold, (IH _ _ _ Hr again). reflexivity.
Qed.

(** X17. A second status pass over the same listing changes nothing: run on the
    features that a first pass returned, the pass returns them as they are
    and leaves [updated] unset, so nothing is published again. *)
Theorem status_pass_is_idempotent
    (lower : string → string) features w features' updated w' :
  review_and_update_specifications lower features w
    = (Ok (features', updated), w') →
  review_and_update_specifications lower features' w'
    = (Ok (features', false), w').
Proof.
  unfold review_and_update_specifications. intros H.
  destruct (update_features_flag _ _ _ _ _ _ _ H) as (-> & _).
  apply (update_features_again _ _ _ _ _ _ H).
Qed.

Lemma status_pass_is_idempotent_witness :
  review_and_update_specifications Py.lower [Ex.user_auth "pending"]
    Ex.repo_open_then_merged
  = (Ok ([Ex.user_auth "in-progress"], true), Ex.repo_open_then_merged) ∧
  review_and_update_specifications Py.lower [Ex.user_auth "in-progress"]
    Ex.repo_open_then_merged
  = (Ok ([Ex.user_auth "in-progress"], false), Ex.repo_open_then_merged).
Proof.
  split; [reflexivity|].
  apply (status_pass_is_idempotent Py.lower [Ex.user_auth "pending"]
           Ex.repo_open_then_merged [Ex.user_auth "in-progress"] true
           Ex.repo_open_then_merged).
  reflexivity.
Defined.

(** ** Titles and feature ids *)

Lemma lower_ascii_not_upper (c : ascii) : is_upper (Py.lower_ascii c) = false.
Proof. destruct c as [[] [] [] [] [] [] [] []]; reflexivity. Qed.

Lemma py_lower_has_no_upper (t : string) : has_upper (Py.lower t) = false.
Proof.
  induction t as [|c t IH]; [reflexivity|].
  simpl. rewrite lower_ascii_not_upper, IH. reflexivity.
Qed.

Lemma prefix_has_no_upper (p s : string) :
  String.prefix p s = true → has_upper s = false → has_upper p = false.
Proof.
  revert s. induction p as [|a p IH]; intros s; [reflexivity|].
  destruct s as [|b s]; simpl; [discriminate|].
  destruct (ascii_dec a b) as [->|]; [|discriminate].
  intros H Hs. apply orb_false_iff in Hs as [Hb Hs].
  rewrite Hb, (IH s H Hs). reflexivity.
Qed.

Lemma has_upper_app (s t : string) :
  has_upper (s +:+ t) = (has_upper s || has_upper t)%bool.
Proof.
  induction s as [|c s IH]; [reflexivity|].
  rewrite append_cons. simpl. rewrite IH, orb_assoc. reflexivity.
Qed.

Lemma implements_needs_lower_case_id lower feature pr :
  (∀ t, has_upper (lower t) = false) →
  has_upper (feature_id feature) = true →
  implements lower feature pr = false.
Proof.
  intros Hlower Hup. unfold implements, Py.startswith.
  apply not_true_is_false. intros H.
  apply prefix_has_no_upper in H; [|apply Hlower].
  rewrite has_upper_app, Hup, orb_true_r in H. discriminate.
Qed.

(** X18. The title of a pull request is lower-cased before it is compared, the
    id of the feature is not: as [str.lower] leaves no upper-case ASCII
    letter in a text, a feature whose id has such a letter matches no pull
    request, and a status pass leaves it as it is whatever the forge
    lists. *)
Theorem feature_with_upper_case_id_is_never_updated
    (lower : string → string) feature w :
  (∀ t, has_upper (lower t) = false) →
  has_upper (feature_id feature) = true →
  (∀ pr, implements lower feature pr = false) ∧
  review_and_update_specifications lower [feature] w
  = (Ok ([feature], false), w).
Proof.
  intros Hlower Hup.
  assert (∀ pr, implements lower feature pr = false) as Hno
    by (intros pr; apply implements_needs_lower_case_id; assumption).
  split; [exact Hno|].
  unfold review_and_update_specifications. simpl.
  destruct (String.eqb (feature_status feature) "pending"); [|reflexivity].
  rewrite bind_unfold. unfold Forge.get_pulls at 1. simpl.
  rewrite scan_pulls_none; [reflexivity|].
  intros pr _. unfold decisive. rewrite Hno. reflexivity.
Qed.

Lemma feature_with_upper_case_id_is_never_updated_witness :
  implements Py.lower More.oauth
    (Ex.titled 3 "feat: OAuth" "closed" true) = false ∧
  review_and_update_specifications Py.lower [More.oauth] More.repo_oauth
  = (Ok ([More.oauth], false), More.repo_oauth).
Proof.
  destruct (feature_with_upper_case_id_is_never_updated Py.lower More.oauth
              More.repo_oauth py_lower_has_no_upper eq_refl)
    as [Hno Hpass].
  split; [apply Hno | exact Hpass].
Defined.

Lemma prefix_trans (a b c : string) :
  String.prefix a b = true → String.prefix b c = true →
  String.prefix a c = true.
Proof.
  revert b c. induction a as [|x a IH]; intros b c; [intros; apply prefix_nil|].
  destruct b as [|y b]; [discriminate|].
  destruct c as [|z c]; [discriminate|]. simpl.
  destruct (ascii_dec x y) as [->|]; [|discriminate].
  destruct (ascii_dec y z) as [->|]; [|discriminate].
  apply IH.
Qed.

Lemma prefix_app_same (p a b : string) :
  String.prefix (p +:+ a) (p +:+ b) = String.prefix a b.
Proof.
  induction p as [|x p IH]; [reflexivity|].
  rewrite !append_cons. simpl. destruct (ascii_dec x x); [exact IH|congruence].
Qed.

(** X19. The match is by prefix: a pull request titled for a feature also
    counts for every feature whose id is the beginning of that feature's
    id. *)
Theorem pull_request_counts_for_shorter_ids
    (lower : string → string) short long pr :
  Py.startswith (feature_id long) (feature_id short) = true →
  implements lower long pr = true →
  implements lower short pr = true.
Proof.
  unfold implements, Py.startswith. intros Hid H.
  apply (prefix_trans _ ("feat: " +:+ feature_id long)); [|exact H].
  rewrite prefix_app_same. exact Hid.
Qed.

Lemma pull_request_counts_for_shorter_ids_witness :
  implements Py.lower (Ex.user_auth "pending")
    (Ex.titled 4 "feat: user-authz roles" "open" false) = true.
Proof.
  apply (pull_request_counts_for_shorter_ids Py.lower
           (Ex.user_auth "pending")
           More.user_authz
           (Ex.titled 4 "feat: user-authz roles" "open" false));
    reflexivity.
Defined.

(** * Commit messages *)

(** The case of [test_check_commit_messages] in the repository's tests. *)
Example check_commit_messages_test :
  check_commit_messages
    [{| info_sha := "abc123"; info_message := "feat: add user authentication" |};
     {| info_sha := "def456"; info_message := "invalid commit message" |}]
  = [glyph_fail +:+ " Commit `def456` doesn't follow conventional commit format"].
Proof. vm_compute. reflexivity. Qed.

(** ** The matcher and the texts that match *)

Lemma matches_eps_inv u : matches Re.Eps u ↔ u = [].
Proof. split; [inversion 1; reflexivity | intros ->; constructor]. Qed.

Lemma matches_lit_inv c u : matches (Re.Lit c) u ↔ u = [c].
Proof. split; [inversion 1; reflexivity | intros ->; constructor]. Qed.

Lemma matches_dot_inv u :
  matches Re.Dot u ↔ ∃ c, u = [c] ∧ c ≠ Re.newline_char.
Proof.
  split; [inversion 1; eauto | intros (c & -> & H); constructor; exact H].
Qed.

Lemma matches_seq_inv r s w :
  matches (Re.Seq r s) w ↔ ∃ u v, w = u ++ v ∧ matches r u ∧ matches s v.
Proof.
  split; [inversion 1; eauto | intros (u & v & -> & Hu & Hv)].
  constructor; assumption.
Qed.

Lemma matches_alt_inv r s w :
  matches (Re.Alt r s) w ↔ matches r w ∨ matches s w.
Proof.
  split; [inversion 1; auto | intros [H|H]].
  - apply matches_alt_l, H.
  - apply matches_alt_r, H.
Qed.

Lemma matches_empty_inv u : ¬ matches Re.Empty u.
Proof. inversion 1. Qed.

Lemma nullable_matches r : Re.nullable r = true ↔ matches r [].
Proof.
  induction r as [| | c | |r IHr s IHs|r IHr s IHs|r IHr]; simpl.
  - split; [discriminate | intros H; destruct (matches_empty_inv _ H)].
  - split; [constructor | reflexivity].
  - split; [discriminate | inversion 1].
  - split; [discriminate | inversion 1].
  - rewrite andb_true_iff, IHr, IHs, matches_seq_inv. split.
    + intros [Hr Hs]. exists [], []. auto.
    + intros (u & v & E & Hu & Hv). symmetry in E.
      apply app_eq_nil in E as [-> ->]. auto.
  - rewrite orb_true_iff, IHr, IHs, matches_alt_inv. reflexivity.
  - split; [constructor | reflexivity].
Qed.

(** A non-empty text that matches [r*] starts with a non-empty text that
    matches [r]. *)
Lemma matches_star_cons r c s :
  matches (Re.Star r) (c :: s) →
  ∃ u v, s = u ++ v ∧ matches r (c :: u) ∧ matches (Re.Star r) v.
Proof.
  intros H. remember (Re.Star r) as r' eqn:Er.
  remember (c :: s) as t eqn:Et. revert c s Et.
  induction H
    as [|c0|c0 Hc0|r1 s1 u v Hu IHu Hv IHv|r1 s1 u Hu IHu|r1 s1 u Hu IHu
        |r1|r0 u v Hu IHu Hv IHv];
    intros c s Et; try discriminate.
  injection Er as ->. destruct u as [|d u]; simpl in Et.
  - apply (IHv eq_refl c s Et).
  - injection Et as -> <-. exists u, v. auto.
Qed.

Lemma deriv_matches c r s : matches (Re.deriv c r) s ↔ matches r (c :: s).
Proof.
  revert s.
  induction r as [| | d | |r IHr r' IHr'|r IHr r' IHr'|r IHr]; intros s;
    simpl.
  - split; inversion 1.
  - split; inversion 1.
  - destruct (Ascii.eqb_spec c d) as [->|Hne].
    + rewrite matches_eps_inv, matches_lit_inv. split; congruence.
    + rewrite matches_lit_inv. split; [inversion 1 | congruence].
  - destruct (Ascii.eqb_spec c Re.newline_char) as [->|Hne].
    + rewrite matches_dot_inv. split; [inversion 1|].
      intros (d & [= -> _] & H). contradiction.
    + rewrite matches_eps_inv, matches_dot_inv. split.
      * intros ->. eauto.
      * intros (d & [= _ ->] & _). reflexivity.
  - assert (matches (Re.Seq (Re.deriv c r) r') s ↔
            ∃ u v, s = u ++ v ∧ matches r (c :: u) ∧ matches r' v) as Hseq.
    { rewrite matches_seq_inv. setoid_rewrite IHr. reflexivity. }
    rewrite (matches_seq_inv r r' (c :: s)).
    destruct (Re.nullable r) eqn:Hn.
    + rewrite matches_alt_inv, Hseq, IHr'. apply nullable_matches in Hn.
      split.
      * intros [(u & v & -> & Hu & Hv)|H].
        -- exists (c :: u), v. auto.
        -- exists [], (c :: s). auto.
      * intros (u & v & E & Hu & Hv). destruct u as [|d u]; simpl in E.
        -- right. rewrite E. exact Hv.
        -- injection E as <- ->. left. eauto.
    + rewrite Hseq. split.
      * intros (u & v & -> & Hu & Hv). exists (c :: u), v. auto.
      * intros (u & v & E & Hu & Hv). destruct u as [|d u]; simpl in E.
        -- apply nullable_matches in Hu. congruence.
        -- injection E as <- ->. eauto.
  - rewrite !matches_alt_inv, IHr, IHr'. reflexivity.
  - rewrite matches_seq_inv. setoid_rewrite IHr. split.
    + intros (u & v & -> & Hu & Hv).
      apply (matches_star_app r (c :: u) v Hu Hv).
    + apply matches_star_cons.
Qed.

(** The matcher finds a match exactly when the text starts with a text
    that matches. *)
Lemma starts_with_match_spec r s :
  Re.starts_with_match r s = true ↔ ∃ p q, s = p ++ q ∧ matches r p.
Proof.
  revert r. induction s as [|c s IH]; intros r; simpl.
  - rewrite orb_false_r, nullable_matches. split.
    + intros H. exists [], []. auto.
    + intros (p & q & E & H). symmetry in E.
      apply app_eq_nil in E as [-> _]. exact H.
  - rewrite orb_true_iff, nullable_matches, IH. split.
    + intros [H|(p & q & -> & H)].
      * exists [], (c :: s). auto.
      * exists (c :: p), q. split; [reflexivity|].
        apply deriv_matches, H.
    + intros (p & q & E & H). destruct p as [|d p]; simpl in E.
      * left. exact H.
      * injection E as <- ->. right. exists p, q.
        split; [reflexivity | apply deriv_matches, H].
Qed.

Lemma list_ascii_of_string_app (s t : string) :
  list_ascii_of_string (s +:+ t)
  = list_ascii_of_string s ++ list_ascii_of_string t.
Proof.
  induction s as [|c s IH]; [reflexivity|].
  rewrite append_cons. simpl. rewrite IH. reflexivity.
Qed.

Lemma string_of_list_ascii_app (u v : list ascii) :
  string_of_list_ascii (u ++ v)
  = string_of_list_ascii u +:+ string_of_list_ascii v.
Proof.
  induction u as [|c u IH]; [reflexivity|].
  simpl. rewrite IH. reflexivity.
Qed.

Lemma matches_str s u :
  matches (Re.Str s) u ↔ u = list_ascii_of_string s.
Proof.
  revert u. induction s as [|c s IH]; intros u; simpl.
  - apply matches_eps_inv.
  - rewrite matches_seq_inv. setoid_rewrite matches_lit_inv.
    setoid_rewrite IH. split.
    + intros (a & b & -> & -> & ->). reflexivity.
    + intros ->. exists [c], (list_ascii_of_string s). auto.
Qed.

Lemma matches_star_dot u :
  matches (Re.Star Re.Dot) u ↔ ¬ In Re.newline_char u.
Proof.
  split.
  - intros H. remember (Re.Star Re.Dot) as r eqn:Er.
    induction H
      as [|c0|c0 Hc0|r1 s1 u v Hu IHu Hv IHv|r1 s1 u Hu IHu|r1 s1 u Hu IHu
          |r1|r0 u v Hu IHu Hv IHv]; try discriminate.
    + intros [].
    + injection Er as ->. rewrite in_app_iff. intros [Hin|Hin].
      * apply matches_dot_inv in Hu as (c & -> & Hc).
        destruct Hin as [->|[]]. contradiction.
      * exact (IHv eq_refl Hin).
  - induction u as [|c u IH]; intros H; [constructor|].
    apply (matches_star_app Re.Dot [c] u).
    + constructor. intros ->. apply H. left. reflexivity.
    + apply IH. intros Hin. apply H. right. exact Hin.
Qed.

Lemma matches_plus_dot u :
  matches (Re.Plus Re.Dot) u ↔ u ≠ [] ∧ ¬ In Re.newline_char u.
Proof.
  unfold Re.Plus. rewrite matches_seq_inv.
  setoid_rewrite matches_dot_inv. setoid_rewrite matches_star_dot. split.
  - intros (a & b & -> & (c & -> & Hc) & Hb). split; [discriminate|].
    intros [->|Hin]; [contradiction | exact (Hb Hin)].
  - intros [Hne H]. destruct u as [|c u]; [contradiction|].
    exists [c], u. split; [reflexivity|]. split.
    + exists c. split; [reflexivity|]. intros ->. apply H. left. reflexivity.
    + intros Hin. apply H. right. exact Hin.
Qed.

Lemma matches_commit_type u :
  matches re_commit_type u ↔
  ∃ type, In type commit_types ∧ u = list_ascii_of_string type.
Proof.
  unfold re_commit_type, commit_types.
  rewrite !matches_alt_inv, !matches_str. simpl In. split.
  - intros [->|[->|[->|[->|[->|[->| ->]]]]]];
      [exists "feat"|exists "fix"|exists "docs"|exists "style"
       |exists "refactor"|exists "test"|exists "chore"];
      (split; [tauto | reflexivity]).
  - intros (type & Hin & ->). decompose [or] Hin; subst; tauto.
Qed.

Lemma matches_scope u :
  matches re_scope u ↔
  ∃ inner, u = list_ascii_of_string "(" ++ inner ++ list_ascii_of_string ")"
           ∧ inner ≠ [] ∧ ¬ In Re.newline_char inner.
Proof.
  unfold re_scope. rewrite matches_seq_inv.
  setoid_rewrite matches_seq_inv. setoid_rewrite matches_lit_inv.
  setoid_rewrite matches_plus_dot. split.
  - intros (a & b & -> & -> & inner & c & -> & [Hne Hnl] & ->).
    exists inner. auto.
  - intros (inner & -> & Hne & Hnl).
    eexists _, _. split; [reflexivity|]. split; [reflexivity|].
    exists inner, (list_ascii_of_string ")"). auto.
Qed.

Lemma is_scope_list scope :
  is_scope scope ↔
  list_ascii_of_string scope = [] ∨
  ∃ inner, list_ascii_of_string scope
           = list_ascii_of_string "(" ++ inner ++ list_ascii_of_string ")"
           ∧ inner ≠ [] ∧ ¬ In Re.newline_char inner.
Proof.
  unfold is_scope, one_line. split.
  - intros [->|(inner & -> & Hne & Hnl)]; [left; reflexivity|right].
    exists (list_ascii_of_string inner).
    rewrite !list_ascii_of_string_app. split; [reflexivity|].
    split; [|exact Hnl]. destruct inner; [contradiction | discriminate].
  - intros [E|(inner & E & Hne & Hnl)].
    + left. destruct scope; [reflexivity | discriminate].
    + right. exists (string_of_list_ascii inner).
      rewrite list_ascii_of_string_of_list_ascii. split; [|split].
      * rewrite <- (string_of_list_ascii_of_string scope), E.
        rewrite !string_of_list_ascii_app. reflexivity.
      * destruct inner; [contradiction | discriminate].
      * exact Hnl.
Qed.

Lemma re_conventional_commit_spec msg :
  Re.match_ re_conventional_commit msg = true ↔
  ∃ type scope c rest,
    msg = type +:+ scope +:+ ": " +:+ String c rest ∧
    In type commit_types ∧ is_scope scope ∧ c ≠ Re.newline_char.
Proof.
  unfold Re.match_. rewrite starts_with_match_spec.
  unfold re_conventional_commit, Re.Opt. split.
  - intros (p & q & E & H).
    apply matches_seq_inv in H as (t & p1 & -> & Ht & H).
    apply matches_seq_inv in H as (sc & p2 & -> & Hsc & H).
    apply matches_seq_inv in H as (colon & subject & -> & Hc & Hsub).
    apply matches_commit_type in Ht as (type & Hin & ->).
    apply matches_str in Hc as ->.
    apply matches_plus_dot in Hsub as [Hne Hnl].
    destruct subject as [|c subject]; [contradiction|].
    exists type, (string_of_list_ascii sc), c,
      (string_of_list_ascii (subject ++ q)).
    split; [|split; [exact Hin|split]].
    + rewrite <- (string_of_list_ascii_of_string msg), E.
      rewrite <- !app_assoc, !string_of_list_ascii_app.
      rewrite string_of_list_ascii_of_string. reflexivity.
    + apply is_scope_list. rewrite list_ascii_of_string_of_list_ascii.
      apply matches_alt_inv in Hsc as [Hsc|Hsc].
      * right. apply matches_scope, Hsc.
      * left. apply matches_eps_inv, Hsc.
    + intros ->. apply Hnl. left. reflexivity.
  - intros (type & scope & c & rest & -> & Hin & Hsc & Hc).
    exists (list_ascii_of_string type ++ list_ascii_of_string scope
              ++ list_ascii_of_string ": " ++ [c]),
      (list_ascii_of_string rest).
    split.
    + rewrite !list_ascii_of_string_app. simpl. rewrite <- !app_assoc.
      reflexivity.
    + apply matches_seq; [apply matches_commit_type; eauto|].
      apply matches_seq.
      * apply matches_alt_inv. apply is_scope_list in Hsc as [->|Hsc].
        -- right. constructor.
        -- left. apply matches_scope, Hsc.
      * apply matches_seq; [apply matches_str; reflexivity|].
        apply matches_plus_dot. split; [discriminate|].
        intros [->|[]]. contradiction.
Qed.

(** X20. What the pattern of [check_commit_messages] accepts: a message that
    starts with one of the seven types, then an optional scope (a
    non-empty one-line text in parentheses), then a colon and a space, and
    then goes on with at least one character that is not a newline. *)
Theorem conventional_commit_format msg :
  Re.match_ re_conventional_commit msg = true ↔
  ∃ type scope c rest,
    msg = type +:+ scope +:+ ": " +:+ String c rest ∧
    In type commit_types ∧ is_scope scope ∧ c ≠ Re.newline_char.
Proof. apply re_conventional_commit_spec. Qed.

(** ** The issues of the commits *)

Lemma check_commit_message_app issues commit :
  check_commit_message issues commit
  = issues ++ check_commit_message [] commit.
Proof.
  unfold check_commit_message.
  destruct (negb _), (Nat.ltb 72 _); simpl;
    rewrite <- ?app_assoc, ?app_nil_r; reflexivity.
Qed.

Lemma fold_check_commit_message commits issues :
  fold_left check_commit_message commits issues
  = issues ++ flat_map (check_commit_message []) commits.
Proof.
  revert issues. induction commits as [|c commits IH]; intros issues; simpl.
  - rewrite app_nil_r. reflexivity.
  - rewrite IH, check_commit_message_app, <- app_assoc. reflexivity.
Qed.

Lemma check_commit_messages_issue commits issue :
  In issue (check_commit_messages commits) ↔
  ∃ commit, In commit commits ∧
    ((issue = format_issue commit ∧
      Re.match_ re_conventional_commit (info_message commit) = false) ∨
     (issue = length_issue commit ∧
      (72 < py_len (first_line (info_message commit)))%nat)).
Proof.
  unfold check_commit_messages. rewrite fold_check_commit_message.
  simpl. rewrite in_flat_map. unfold check_commit_message.
  split; intros (commit & Hin & H); exists commit; (split; [exact Hin|]).
  - destruct (Re.match_ _ _) eqn:Em,
      (Nat.ltb_spec 72 (py_len (first_line (info_message commit))));
      simpl in H; intuition.
  - destruct H as [[-> Em]|[-> Hl]].
    + rewrite Em. simpl. destruct (Nat.ltb 72 _); simpl; auto.
    + apply Nat.ltb_lt in Hl. rewrite Hl.
      destruct (negb _); simpl; auto.
Qed.

(** X21. The issues that [check_commit_messages] returns are those of the
    commits that break a rule: a commit whose message the pattern does not
    accept has the issue of the format, a commit whose first line has more
    than 72 characters has the issue of the length, each under the first
    seven characters of its sha, and there is no other issue. *)
Theorem commit_issues_tell_the_broken_rules commits issue :
  In issue (check_commit_messages commits) ↔
  ∃ commit, In commit commits ∧
    ((issue = format_issue commit ∧
      Re.match_ re_conventional_commit (info_message commit) = false) ∨
     (issue = length_issue commit ∧
      (72 < py_len (first_line (info_message commit)))%nat)).
Proof. apply check_commit_messages_issue. Qed.

(** X22. Every issue of a commit message blocks: it starts with the glyph that
    [is_blocking_issue] looks for, so that a review with such an issue
    requests changes. There are at most two issues per commit. *)
Theorem commit_issues_are_blocking commits :
  (∀ issue, In issue (check_commit_messages commits) →
     is_blocking_issue issue = true) ∧
  (List.length (check_commit_messages commits) ≤ 2 * List.length commits)%nat.
Proof.
  split.
  - intros issue Hin.
    apply check_commit_messages_issue in Hin
      as (commit & _ & [[-> _]|[-> _]]);
      apply prefix_refl_app.
  - unfold check_commit_messages. rewrite fold_check_commit_message. simpl.
    induction commits as [|c commits IH]; simpl; [lia|].
    rewrite length_app.
    assert (List.length (check_commit_message [] c) ≤ 2)%nat.
    { unfold check_commit_message.
      destruct (negb _), (Nat.ltb 72 _); simpl; lia. }
    lia.
Qed.

Lemma string_app_assoc (a b c : string) :
  (a +:+ b) +:+ c = a +:+ b +:+ c.
Proof.
  induction a as [|x a IH]; [reflexivity|].
  rewrite !append_cons, IH. reflexivity.
Qed.

Lemma string_app_nil_r (s : string) : s +:+ EmptyString = s.
Proof.
  induction s as [|x s IH]; [reflexivity|]. rewrite append_cons, IH.
  reflexivity.
Qed.

Lemma first_line_of_subject (subject body : string) :
  one_line subject →
  first_line (subject +:+ String Re.newline_char body) = subject.
Proof.
  unfold one_line. induction subject as [|c subject IH]; intros H.
  - reflexivity.
  - rewrite append_cons. simpl.
    destruct (Ascii.eqb_spec c Re.newline_char) as [->|_].
    + exfalso. apply H. left. reflexivity.
    + rewrite IH; [reflexivity|]. intros Hin. apply H. right. exact Hin.
Qed.

Lemma first_line_one_line (s : string) : one_line s → first_line s = s.
Proof.
  unfold one_line. induction s as [|c s IH]; intros H; [reflexivity|].
  simpl. destruct (Ascii.eqb_spec c Re.newline_char) as [->|_].
  - exfalso. apply H. left. reflexivity.
  - rewrite IH; [reflexivity|]. intros Hin. apply H. right. exact Hin.
Qed.

Lemma one_line_app (s t : string) :
  one_line s → one_line t → one_line (s +:+ t).
Proof.
  unfold one_line. rewrite list_ascii_of_string_app, in_app_iff. tauto.
Qed.

(** X23. A commit whose message is a subject line of the form
    "type: text" or "type(scope): text", of at most 72 characters, alone
    or followed by further lines, raises no issue. *)
Theorem conventional_commit_raises_no_issue sha type scope text body :
  In type commit_types →
  scope = EmptyString ∨
    (∃ inner, scope = "(" +:+ inner +:+ ")" ∧ inner ≠ EmptyString ∧
              one_line inner) →
  text ≠ EmptyString → one_line text →
  (py_len (type +:+ scope +:+ ": " +:+ text) ≤ 72)%nat →
  let subject := type +:+ scope +:+ ": " +:+ text in
  check_commit_messages [{| info_sha := sha; info_message := subject |}] = []
  ∧
  check_commit_messages
    [{| info_sha := sha;
        info_message := subject +:+ String Re.newline_char body |}] = [].
Proof.
  intros Htype Hscope Htext Hline Hlen subject.
  assert (one_line subject) as Hsub.
  { unfold subject. apply one_line_app.
    - unfold commit_types in Htype. simpl in Htype.
      decompose [or] Htype; subst; try contradiction;
        unfold one_line; simpl; intuition discriminate.
    - apply one_line_app.
      + destruct Hscope as [->|(inner & -> & _ & Hin)].
        * intros [].
        * apply one_line_app; [unfold one_line; simpl; intuition discriminate|].
          apply one_line_app; [exact Hin|].
          unfold one_line; simpl; intuition discriminate.
      + apply one_line_app; [|exact Hline].
        unfold one_line; simpl; intuition discriminate. }
  assert (∀ rest, Re.match_ re_conventional_commit (subject +:+ rest) = true)
    as Hmatch.
  { intros rest. apply re_conventional_commit_spec.
    destruct text as [|c text]; [contradiction|].
    exists type, scope, c, (text +:+ rest). unfold subject.
    split; [|split; [exact Htype|split; [exact Hscope|]]].
    - rewrite !string_app_assoc. reflexivity.
    - intros ->. apply Hline. left. reflexivity. }
  assert (∀ commit,
            Re.match_ re_conventional_commit (info_message commit) = true →
            (py_len (first_line (info_message commit)) ≤ 72)%nat →
            check_commit_messages [commit] = []) as Hnone.
  { intros commit Hm Hl. unfold check_commit_messages. simpl.
    unfold check_commit_message. rewrite Hm.
    apply Nat.ltb_ge in Hl. rewrite Hl. reflexivity. }
  split; apply Hnone; simpl.
  - rewrite <- (string_app_nil_r subject). apply Hmatch.
  - rewrite first_line_one_line by exact Hsub. exact Hlen.
  - apply Hmatch.
  - rewrite first_line_of_subject by exact Hsub. exact Hlen.
Qed.

Lemma conventional_commit_raises_no_issue_witness :
  check_commit_messages [More.commit_ok] = [].
Proof.
  apply (conventional_commit_raises_no_issue "abc1234def" "feat" "(auth)"
           "add login" EmptyString).
  - simpl. tauto.
  - right. exists "auth". split; [reflexivity|]. split; [discriminate|].
    unfold one_line. simpl. intuition discriminate.
  - discriminate.
  - unfold one_line. simpl. intuition discriminate.
  - vm_compute. lia.
Defined.

(** * Branches *)

Lemma strip_prefix_app (p s : string) : strip_prefix p (p +:+ s) = Some s.
Proof.
  induction p as [|a p IH]; [reflexivity|].
  rewrite append_cons. simpl. rewrite Ascii.eqb_refl. exact IH.
Qed.

Lemma find_branch_none name bs :
  existsb (λ b : string * string, String.eqb (fst b) name) bs = false →
  List.find (λ b : string * string, String.eqb (fst b) name) bs = None.
Proof.
  induction bs as [|b bs IH]; simpl; [reflexivity|].
  destruct (String.eqb (fst b) name); [discriminate | exact IH].
Qed.

Lemma find_branch_some name bs :
  existsb (λ b : string * string, String.eqb (fst b) name) bs = true →
  ∃ b, List.find (λ b : string * string, String.eqb (fst b) name) bs = Some b.
Proof.
  induction bs as [|b bs IH]; simpl; [discriminate|].
  destruct (String.eqb (fst b) name); [eauto | exact IH].
Qed.

Lemma find_app_none {A} (f : A → bool) (l l' : list A) :
  List.find f l = None → List.find f (l ++ l') = List.find f l'.
Proof.
  induction l as [|x l IH]; simpl; [reflexivity|].
  destruct (f x); [discriminate | exact IH].
Qed.

Lemma create_branch_cases name from w :
  (∃ sha,
     Forge.get_branch_sha from w = (Ok sha, w) ∧
     existsb (λ b, String.eqb (fst b) name) (branches w) = false ∧
     create_branch name from w
     = (Ok true,
        {| pulls := pulls w; branches := branches w ++ [(name, sha)];
           login := login w; requests := requests w |})) ∨
  ((fst (Forge.get_branch_sha from w) = Raise (GithubException 404) ∨
    existsb (λ b, String.eqb (fst b) name) (branches w) = true) ∧
   create_branch name from w = (Ok false, w)).
Proof.
  unfold create_branch, try_except. rewrite bind_unfold.
  unfold Forge.get_branch_sha.
  destruct (List.find _ (branches w)) as [b|]; [|right; auto].
  rewrite bind_unfold. unfold create_git_ref. rewrite strip_prefix_app.
  destruct (existsb _ (branches w)) eqn:E; [right; auto|].
  left. exists (snd b). auto.
Qed.

(** X24. [create_branch] returns [True] exactly when the branch to start from
    exists and the new name is free. Then the new branch points at the
    head of the branch it starts from, and a second call for the same
    name, from whatever branch, returns [False] and changes nothing; this
    is what keeps an agent from redoing, cycle after cycle, the work it
    does on a branch of a fixed name. When it returns [False] the
    repository is as it was. *)
Theorem create_branch_succeeds_once name from w :
  ∃ created w1,
    create_branch name from w = (Ok created, w1) ∧
    (created = true ↔
       (∃ sha, Forge.get_branch_sha from w = (Ok sha, w)) ∧
       ∀ sha, Forge.get_branch_sha name w ≠ (Ok sha, w)) ∧
    (created = false → w1 = w) ∧
    (created = true →
       fst (Forge.get_branch_sha name w1)
         = fst (Forge.get_branch_sha from w) ∧
       ∀ other, create_branch name other w1 = (Ok false, w1)).
Proof.
  destruct (create_branch_cases name from w)
    as [(sha & Hb & Hfree & ->)|[Hwhy ->]]; eexists _, _;
    (split; [reflexivity|]).
  - split; [|split; [discriminate|intros _; split]].
    + split; [intros _|reflexivity]. split; [eauto|].
      intros sha'. unfold Forge.get_branch_sha.
      rewrite (find_branch_none _ _ Hfree). discriminate.
    + rewrite Hb. unfold Forge.get_branch_sha. simpl.
      rewrite (find_app_none _ _ _ (find_branch_none _ _ Hfree)). simpl.
      rewrite String.eqb_refl. reflexivity.
    + intros other.
      match goal with |- create_branch _ _ ?w = _ => set (w1 := w) end.
      destruct (create_branch_cases name other w1)
        as [(sha' & _ & Hfree' & _)|[_ ->]]; [|reflexivity].
      unfold w1 in Hfree'. simpl in Hfree'.
      rewrite existsb_app in Hfree'. simpl in Hfree'.
      rewrite String.eqb_refl, orb_true_r in Hfree'. discriminate.
  - split; [|split; [reflexivity | discriminate]].
    split; [discriminate|]. intros [(sha & Hb) Hfree]. exfalso.
    destruct Hwhy as [Hwhy|Hwhy].
    + rewrite Hb in Hwhy. discriminate.
    + apply find_branch_some in Hwhy as [b Hfind].
      apply (Hfree (snd b)). unfold Forge.get_branch_sha. rewrite Hfind.
      reflexivity.
Qed.

(** * The merge agent's cycle *)

Lemma for_each_evaluate_requests ds w :
  ∃ new,
    requests (snd (for_each evaluate_pr_for_merge ds w)) = requests w ++ new ∧
    (List.length new ≤ List.length ds)%nat.
Proof.
  revert w. induction ds as [|d ds IH]; intros w; simpl.
  - exists []. rewrite app_nil_r. split; [reflexivity | simpl; lia].
  - rewrite bind_unfold.
    destruct (evaluate_pr_for_merge_requests d w) as (n1 & H1 & L1).
    destruct (evaluate_pr_for_merge d w) as [[[]|e] w1]; simpl in H1.
    + destruct (IH w1) as (n2 & H2 & L2). exists (n1 ++ n2).
      rewrite H2, H1, <- app_assoc, length_app. split; [reflexivity | lia].
    + exists n1. simpl. split; [exact H1 | lia].
Qed.

(** X25. In one cycle the merge agent sends the forge at most one request per
    open pull request, and none when no pull request is open: what the
    forge had received before stays, and no pull request is commented on
    or merged twice in a cycle. *)
Theorem merge_cycle_sends_at_most_one_request_per_open_pull_request w :
  ∃ new,
    requests (snd (MergeAgent.process w)) = requests w ++ new ∧
    (List.length new
     ≤ List.length
         (List.filter (λ p, String.eqb (pr_state p) "open") (pulls w)))%nat.
Proof.
  unfold MergeAgent.process.
  erewrite bind_ok by reflexivity.
  destruct (for_each_evaluate_requests
              (List.map pr_dict
                 (List.filter (λ p, String.eqb (pr_state p) "open")
                    (pulls w))) w) as (new & H & L).
  exists new. rewrite length_map in L. split; [exact H | exact L].
Qed.

(** * Further examples *)

Lemma open_pull_requests_can_be_fetched_witness :
  ∃ pr, Forge.get_pull 2 Ex.repo_unreachable_first
          = (Ok pr, Ex.repo_unreachable_first) ∧
        pr_number pr = 2.
Proof.
  destruct (open_pull_requests_can_be_fetched Ex.repo_unreachable_first)
    as (listed & Hl & _ & Hf).
  injection Hl as <-. apply (Hf (Ex.dict 2)). right. left. reflexivity.
Defined.

Lemma commit_issues_are_blocking_witness :
  check_commit_messages [More.commit_bad] ≠ [] ∧
  ∀ issue, In issue (check_commit_messages [More.commit_bad]) →
    is_blocking_issue issue = true.
Proof.
  split; [vm_compute; discriminate|].
  apply (commit_issues_are_blocking [More.commit_bad]).
Defined.

Lemma create_branch_succeeds_once_witness :
  ∃ w1,
    create_branch "feat/user-auth" "main" (Ex.repo []) = (Ok true, w1) ∧
    Forge.get_branch_sha "feat/user-auth" w1 = (Ok "abc123", w1) ∧
    create_branch "feat/user-auth" "main" w1 = (Ok false, w1).
Proof.
  destruct (create_branch_succeeds_once "feat/user-auth" "main" (Ex.repo []))
    as (created & w1 & Hc & _ & _ & Htrue).
  vm_compute in Hc. injection Hc as <- <-.
  eexists. split; [vm_compute; reflexivity|].
  split; [vm_compute; reflexivity|].
  apply (proj2 (Htrue eq_refl) "main").
Defined.
